(** * wenyan-lsp: the language server's document synchronisation,
      diagnostics and completion handlers

    The repository holds three revisions of [server.ts]:
    - [part_000]: the engine is the package [tgkw]; the position of a
      [WenyanError] is read from its [line] and [column] fields;
    - [part_001] and [part_002] (the same code, with and without comments):
      the engine is the submodule [../engine/src]; the position of a
      [WenyanError] is recovered from its message by two regular expressions.
    [Module ServerA] embeds the first, [Module ServerB] the other two.

    Numbers.  Lines, columns and versions are JavaScript numbers; the model
    uses [Z], which is exact for integers of magnitude at most 2^53.
    Strings.  A JavaScript string is a sequence of UTF-16 code units; the
    model uses [list N]. *)

From Stdlib Require Import ZArith NArith List Lia Ascii String.
From stdpp Require Import base decidable option list gmap.

Open Scope Z_scope.

(** ** JavaScript strings and the built-ins the handlers call *)

Module JS.

Abbreviation jsstring := (list N).

(** Code units of a literal written in this file.  The file is UTF-8, so a
    literal is the byte sequence of its UTF-8 encoding; [utf16] decodes the
    one-, two- and three-byte forms (the Basic Multilingual Plane, which
    holds every literal of [server.ts]). *)
Fixpoint utf16 (bs : list N) : jsstring :=
  match bs with
  | [] => []
  | b0 :: r0 =>
      if (b0 <? 0x80)%N then b0 :: utf16 r0
      else if (b0 <? 0xE0)%N then
        match r0 with
        | b1 :: r1 =>
            N.lor (N.shiftl (N.land b0 0x1F) 6) (N.land b1 0x3F) :: utf16 r1
        | [] => []
        end
      else
        match r0 with
        | b1 :: b2 :: r2 =>
            N.lor (N.shiftl (N.land b0 0x0F) 12)
                  (N.lor (N.shiftl (N.land b1 0x3F) 6) (N.land b2 0x3F))
              :: utf16 r2
        | _ => []
        end
  end.

Definition js (s : string) : jsstring :=
  utf16 (map N_of_ascii (list_ascii_of_string s)).

(** [String.prototype.startsWith]: [startsWith s p] is [s.startsWith(p)],
    a comparison of code units. *)
Fixpoint startsWith (s p : jsstring) {struct p} : bool :=
  match p, s with
  | [], _ => true
  | _ :: _, [] => false
  | c :: p', d :: s' => (d =? c)%N && startsWith s' p'
  end.

(** The code points [String.prototype.trim] strips: ECMAScript's WhiteSpace
    and LineTerminator productions. *)
Definition isWhiteSpace (c : N) : bool :=
  ((0x09 <=? c) && (c <=? 0x0D) || (c =? 0x20) || (c =? 0xA0) || (c =? 0x1680)
   || (0x2000 <=? c) && (c <=? 0x200A) || (c =? 0x2028) || (c =? 0x2029)
   || (c =? 0x202F) || (c =? 0x205F) || (c =? 0x3000) || (c =? 0xFEFF))%N.

Fixpoint trimStart (s : jsstring) : jsstring :=
  match s with
  | [] => []
  | c :: s' => if isWhiteSpace c then trimStart s' else s
  end.

Definition trim (s : jsstring) : jsstring :=
  rev (trimStart (rev (trimStart s))).

(** [\d] without the [u] flag: the ten ASCII digits. *)
Definition isDigit (c : N) : bool := ((0x30 <=? c) && (c <=? 0x39))%N.

Fixpoint digitRun (s : jsstring) : jsstring * jsstring :=
  match s with
  | [] => ([], [])
  | c :: s' =>
      if isDigit c then let '(ds, r) := digitRun s' in (c :: ds, r)
      else ([], s)
  end.

(** The code units of 第, 行 and 列. *)
Definition di : N := 0x7B2C.
Definition hang : N := 0x884C.
Definition lie : N := 0x5217.

(** The pattern [第(\d+)X] anchored at the head of [s]; the result is capture
    group 1.  [\d+] is greedy; giving a digit back never helps, since the
    next code unit would then be a digit and not [X], so the only candidate
    is the maximal run of digits. *)
Definition matchHere (X : N) (s : jsstring) : option jsstring :=
  match s with
  | c :: s' =>
      if (c =? di)%N then
        match digitRun s' with
        | (d :: ds, x :: _) => if (x =? X)%N then Some (d :: ds) else None
        | _ => None
        end
      else None
  | [] => None
  end.

(** [s.match(/第(\d+)X/)]: the leftmost match; [Some] of capture group 1, or
    [None] for [null]. *)
Fixpoint matchMarker (X : N) (s : jsstring) : option jsstring :=
  match matchHere X s with
  | Some g => Some g
  | None =>
      match s with
      | [] => None
      | _ :: s' => matchMarker X s'
      end
  end.

(** [parseInt] on a string of decimal digits. *)
Definition parseInt (ds : jsstring) : Z :=
  fold_left (fun acc d => 10 * acc + (Z.of_N d - 0x30)) ds 0.

(** A number-valued expression that may be [undefined] or [NaN] is an
    [option Z]; [None] stands for both, which [- 1] and [||] do not
    distinguish. *)
Definition minus1 (x : option Z) : option Z :=
  match x with
  | Some v => Some (v - 1)
  | None => None
  end.

(** [x || 0]: [0], [NaN] and [undefined] are falsy. *)
Definition orZero (x : option Z) : Z :=
  match x with
  | Some v => if v =? 0 then 0 else v
  | None => 0
  end.

(** [m || d] on strings: [undefined] and the empty string are falsy. *)
Definition orString (m : option jsstring) (d : jsstring) : jsstring :=
  match m with
  | Some (c :: s) => c :: s
  | _ => d
  end.

End JS.

Import JS.

(** ** Protocol types ([vscode-languageserver]) and the server's state *)

Module LSP.

Record Position := { line : Z; character : Z }.

(** [end] is a keyword here, hence [end_]. *)
Record Range := { start : Position; end_ : Position }.

Inductive DiagnosticSeverity := Error | Warning | Information | Hint.

Record Diagnostic := {
  severity : DiagnosticSeverity;
  range : Range;
  message : jsstring;
  source : jsstring
}.

Record PublishDiagnosticsParams := {
  pd_uri : jsstring;
  diagnostics : list Diagnostic
}.

Record Location := { loc_uri : jsstring; loc_range : Range }.

Record MarkupContent := { markup_kind : jsstring; value : jsstring }.

Record Hover := { contents : MarkupContent }.

Record TextDocumentPositionParams := {
  textDocument_uri : jsstring;
  position : Position
}.

(** [TextDocument.create(uri, languageId, version, text)] *)
Record TextDocument := create {
  uri : jsstring;
  languageId : jsstring;
  version : Z;
  getText : jsstring
}.

Record DidOpenParams := {
  open_uri : jsstring;
  open_languageId : jsstring;
  open_version : Z;
  open_text : jsstring
}.

(** The engine's error class: a message, and in the [tgkw] package a line and
    a column, either of which may be [undefined]. *)
Record WenyanError := {
  err_message : jsstring;
  err_line : option Z;
  err_column : option Z
}.

(** What the [try] block can catch: an instance of [WenyanError], or any
    other value, whose [message] may be [undefined].  (A thrown [null] or
    [undefined], on which reading [message] would throw again, is left
    out.) *)
Inductive Thrown :=
| IsWenyanError (error : WenyanError)
| OtherError (error_message : option jsstring).

(** The outcome of a call into the engine. *)
Inductive Outcome (A : Type) :=
| Returns (a : A)
| Throws (e : Thrown).
Arguments Returns {A} a.
Arguments Throws {A} e.

(** The module-level state: the [documents] map, and the notifications
    handed to [connection.sendDiagnostics], oldest first.  A notification
    handler is a function [Server -> Server]; a request handler returns its
    answer together with the state. *)
Record Server := {
  documents : gmap jsstring TextDocument;
  sent : list PublishDiagnosticsParams
}.

Definition sendDiagnostics (p : PublishDiagnosticsParams) (sv : Server) : Server :=
  {| documents := documents sv; sent := sent sv ++ [p] |}.

(** [documents.set(k, d)] and [documents.delete(k)] *)
Definition documents_set (k : jsstring) (d : TextDocument) (sv : Server) : Server :=
  {| documents := <[k := d]> (documents sv); sent := sent sv |}.

Definition documents_delete (k : jsstring) (sv : Server) : Server :=
  {| documents := delete k (documents sv); sent := sent sv |}.

Definition position0 (l c : Z) : Position := {| line := l; character := c |}.

(** The diagnostic of the [else] branch, the same in the three revisions. *)
Definition otherDiagnostic (m : option jsstring) : Diagnostic :=
  {| severity := Error;
     range := {| start := position0 0 0; end_ := position0 0 1 |};
     message := orString m (js "未知错误");
     source := js "wenyan-lsp" |}.

End LSP.

Import LSP.

(** ** [part_000]: positions from the error's [line] and [column] *)

Module ServerA.

Record CompletionItem := {
  label : jsstring;
  kind : Z;
  insertText : jsstring;
  insertTextFormat : Z
}.

Definition keywords : list jsstring :=
  [ js "夫"; js "且"; js "或"; js "若"; js "否则"; js "为是"; js "循环";
    js "复行"; js "止"; js "返"; js "注：" ].

(** The diagnostic of the [instanceof WenyanError] branch.  [a - 1 || 0]
    parses as [(a - 1) || 0]. *)
Definition wenyanDiagnostic (error : WenyanError) : Diagnostic :=
  {| severity := Error;
     range :=
       {| start :=
            {| line := orZero (minus1 (err_line error));
               character := orZero (minus1 (err_column error)) |};
          end_ :=
            {| line := orZero (minus1 (err_line error));
               character := orZero (err_column error) + 1 |} |};
     message := err_message error;
     source := js "wenyan-lsp" |}.

Section Handlers.

Context {Tokens Change : Type}.
(** [new Lexer(text).tokenize()] and [new Parser(tokens).parse()] *)
Variable tokenize : jsstring -> Outcome Tokens.
Variable parse : Tokens -> Outcome unit.
(** [document.getText(range)] and [TextDocument.update], of
    [vscode-languageserver-textdocument] (the library updates the stored
    object in place and returns it; the handler stores the result under the
    same key, so the store holds [update document ...] either way) *)
Variable getTextRange : TextDocument -> Range -> jsstring.
Variable update : TextDocument -> list Change -> Z -> TextDocument.

(** The [try] block: [None] when both stages return; the first [throw]
    otherwise, the parser not being run when the lexer throws. *)
Definition tryEngine (text : jsstring) : option Thrown :=
  match tokenize text with
  | Throws e => Some e
  | Returns tokens =>
      match parse tokens with
      | Throws e => Some e
      | Returns _ => None
      end
  end.

(** The [catch] block pushes one diagnostic; [sendDiagnostics] follows the
    [try] statement on every path. *)
Definition validateDocument (document : TextDocument) (sv : Server) : Server :=
  let text := getText document in
  let diagnostics :=
    match tryEngine text with
    | None => []
    | Some (IsWenyanError error) => [wenyanDiagnostic error]
    | Some (OtherError m) => [otherDiagnostic m]
    end in
  sendDiagnostics {| pd_uri := uri document; diagnostics := diagnostics |} sv.

Definition onDidOpenTextDocument (params : DidOpenParams) (sv : Server) : Server :=
  let document :=
    create (open_uri params) (open_languageId params) (open_version params)
           (open_text params) in
  validateDocument document (documents_set (uri document) document sv).

Definition onDidChangeTextDocument
    (params_uri : jsstring) (contentChanges : list Change) (params_version : Z)
    (sv : Server) : Server :=
  match documents sv !! params_uri with
  | Some document =>
      let newDocument := update document contentChanges params_version in
      validateDocument newDocument (documents_set params_uri newDocument sv)
  | None => sv
  end.

Definition onDidCloseTextDocument (params_uri : jsstring) (sv : Server) : Server :=
  sendDiagnostics {| pd_uri := params_uri; diagnostics := [] |}
                  (documents_delete params_uri sv).

Definition onCompletion (params : TextDocumentPositionParams) (sv : Server)
  : list CompletionItem * Server :=
  match documents sv !! textDocument_uri params with
  | None => ([], sv)
  | Some document =>
      let line :=
        getTextRange document
          {| start := position0 (line (position params)) 0;
             end_ := position params |} in
      (map (fun kw => {| label := kw; kind := 13; insertText := kw;
                         insertTextFormat := 1 |})
           (List.filter (fun kw => startsWith kw (trim line)) keywords),
       sv)
  end.

End Handlers.

End ServerA.

(** ** [part_001] and [part_002]: positions from the error's message *)

Module ServerB.

Inductive CompletionItemKind := Keyword | Operator.

Record CompletionItem := {
  label : jsstring;
  kind : CompletionItemKind;
  detail : jsstring;
  documentation : jsstring
}.

Definition item (l : string) (k : CompletionItemKind) (d doc : string)
  : CompletionItem :=
  {| label := js l; kind := k; detail := js d; documentation := js doc |}.

Definition keywords : list CompletionItem :=
  [ item "涵义" Keyword "函数定义" "定义函数";
    item "需知" Keyword "参数定义" "声明函数参数";
    item "求" Keyword "返回语句" "函数返回值";
    item "已知" Keyword "函数调用参数"
         "调用函数时提供的参数，对应函数定义中的需知";
    item "为" Keyword "作为" "指定用途或类型";
    item "令" Keyword "变量声明" "声明变量";
    item "倘若" Keyword "条件判断" "条件判断的开始";
    item "再若" Keyword "否则如果" "条件判断的分支";
    item "再则" Keyword "否则如果" "条件判断的分支";
    item "否则" Keyword "否则" "条件判断的默认分支";
    item "当" Keyword "当条件" "条件触发";
    item "时复行" Keyword "当循环" "当条件满足时循环";
    item "复行" Keyword "重复执行" "重复执行代码块";
    item "次" Keyword "次数" "指定循环次数";
    item "以" Keyword "使用" "使用变量或值";
    item "是" Operator "等于" "相等比较运算符";
    item "不是" Operator "不等于" "不等比较运算符";
    item "胜于" Operator "大于等于" "大于等于比较运算符";
    item "不及" Operator "小于等于" "小于等于比较运算符";
    item "且" Operator "逻辑与" "逻辑与运算符";
    item "并且" Operator "逻辑与" "逻辑与运算符（完整版）";
    item "或" Operator "逻辑或" "逻辑或运算符";
    item "或者" Operator "逻辑或" "逻辑或运算符（完整版）" ].

(** [m ? parseInt(m[1]) - 1 : 0] *)
Definition markerIndex (m : option jsstring) : Z :=
  match m with
  | Some g => parseInt g - 1
  | None => 0
  end.

(** The diagnostic of the [instanceof WenyanError] branch; the error's
    [line] and [column] are not read. *)
Definition wenyanDiagnostic (error : WenyanError) : Diagnostic :=
  let lineMatch := matchMarker hang (err_message error) in
  let columnMatch := matchMarker lie (err_message error) in
  let line := markerIndex lineMatch in
  let column := markerIndex columnMatch in
  {| severity := Error;
     range :=
       {| start := {| LSP.line := line; character := column |};
          end_ := {| LSP.line := line; character := column + 1 |} |};
     message := err_message error;
     source := js "wenyan-lsp" |}.

Section Handlers.

Context {Tokens Change : Type}.
(** [new Lexer(text).tokenize()] and [new Parser(tokens).parse()] *)
Variable tokenize : jsstring -> Outcome Tokens.
Variable parse : Tokens -> Outcome unit.
(** [document.getText(range)] and [TextDocument.update], of
    [vscode-languageserver-textdocument] (the library updates the stored
    object in place and returns it; the handler stores the result under the
    same key, so the store holds [update document ...] either way) *)
Variable getTextRange : TextDocument -> Range -> jsstring.
Variable update : TextDocument -> list Change -> Z -> TextDocument.

(** The [try] block: [None] when both stages return; the first [throw]
    otherwise, the parser not being run when the lexer throws. *)
Definition tryEngine (text : jsstring) : option Thrown :=
  match tokenize text with
  | Throws e => Some e
  | Returns tokens =>
      match parse tokens with
      | Throws e => Some e
      | Returns _ => None
      end
  end.

(** The [catch] block pushes one diagnostic; [sendDiagnostics] follows the
    [try] statement on every path. *)
Definition validateDocument (document : TextDocument) (sv : Server) : Server :=
  let text := getText document in
  let diagnostics :=
    match tryEngine text with
    | None => []
    | Some (IsWenyanError error) => [wenyanDiagnostic error]
    | Some (OtherError m) => [otherDiagnostic m]
    end in
  sendDiagnostics {| pd_uri := uri document; diagnostics := diagnostics |} sv.

Definition onDidOpenTextDocument (params : DidOpenParams) (sv : Server) : Server :=
  let document :=
    create (open_uri params) (open_languageId params) (open_version params)
           (open_text params) in
  validateDocument document (documents_set (uri document) document sv).

Definition onDidChangeTextDocument
    (params_uri : jsstring) (contentChanges : list Change) (params_version : Z)
    (sv : Server) : Server :=
  match documents sv !! params_uri with
  | Some document =>
      let newDocument := update document contentChanges params_version in
      validateDocument newDocument (documents_set params_uri newDocument sv)
  | None => sv
  end.

Definition onDidCloseTextDocument (params_uri : jsstring) (sv : Server) : Server :=
  sendDiagnostics {| pd_uri := params_uri; diagnostics := [] |}
                  (documents_delete params_uri sv).

Definition onCompletion (textDocumentPosition : TextDocumentPositionParams)
    (sv : Server) : list CompletionItem * Server :=
  match documents sv !! textDocument_uri textDocumentPosition with
  | None => ([], sv)
  | Some document =>
      let line :=
        getTextRange document
          {| start := position0 (line (position textDocumentPosition)) 0;
             end_ := position0 (line (position textDocumentPosition))
                               (character (position textDocumentPosition)) |} in
      let filteredKeywords :=
        List.filter
          (fun keyword =>
             match trim line with [] => true | _ :: _ => false end
             || startsWith (label keyword) (trim line))
          keywords in
      (filteredKeywords, sv)
  end.

Definition onCompletionResolve (item : CompletionItem) (sv : Server)
  : CompletionItem * Server :=
  (item, sv).

Definition onDefinition (textDocumentPosition : TextDocumentPositionParams)
    (sv : Server) : option Location * Server :=
  match documents sv !! textDocument_uri textDocumentPosition with
  | None => (None, sv)
  | Some document =>
      (Some {| loc_uri := textDocument_uri textDocumentPosition;
               loc_range :=
                 {| start := position0 (line (position textDocumentPosition)) 0;
                    end_ := position0 (line (position textDocumentPosition)) 10 |} |},
       sv)
  end.

Definition onHover (textDocumentPosition : TextDocumentPositionParams)
    (sv : Server) : option Hover * Server :=
  match documents sv !! textDocument_uri textDocumentPosition with
  | None => (None, sv)
  | Some document =>
      let line :=
        getTextRange document
          {| start := position0 (line (position textDocumentPosition)) 0;
             end_ := position0 (line (position textDocumentPosition) + 1) 0 |} in
      (Some {| contents :=
                 {| markup_kind := js "markdown";
                    value := js "**当前行内容**" ++ [10; 10]%N ++ trim line |} |},
       sv)
  end.

End Handlers.

End ServerB.

(** ** A scripted engine and a line-oriented [getText], for the examples *)

Module Sample.

(** The lexer hands the text on as its token sequence; the parser throws what
    the script says for that text. *)
Definition tokenize (text : jsstring) : Outcome jsstring := Returns text.

Definition parse (script : jsstring -> option Thrown) (tokens : jsstring)
  : Outcome unit :=
  match script tokens with
  | Some e => Throws e
  | None => Returns tt
  end.

Fixpoint dropLines (s : jsstring) (n : nat) : jsstring :=
  match n, s with
  | O, _ => s
  | S _, [] => []
  | S n', c :: s' => if (c =? 10)%N then dropLines s' n' else dropLines s' n
  end.

Fixpoint firstLine (s : jsstring) : jsstring :=
  match s with
  | [] => []
  | c :: s' => if (c =? 10)%N then [] else c :: firstLine s'
  end.

(** The text from [start] to [end_] when both are on one line, the whole line
    otherwise. *)
Definition getTextRange (document : TextDocument) (r : Range) : jsstring :=
  let l := firstLine (dropLines (getText document) (Z.to_nat (line (start r)))) in
  if line (start r) =? line (end_ r)
  then take (Z.to_nat (character (end_ r) - character (start r)))
            (drop (Z.to_nat (character (start r))) l)
  else l.

(** Full-document replacement: the last change is the new text. *)
Definition update (document : TextDocument) (contentChanges : list jsstring)
    (v : Z) : TextDocument :=
  create (uri document) (languageId document) v
         (List.last contentChanges (getText document)).

Definition server0 : Server := {| documents := ∅; sent := [] |}.

(** The scenario of the first diagnostic: the document [d1] with the text
    [bad syntax (], on which the engine throws a [WenyanError] with message
    [unexpected end], line 1 and column 13. *)
Definition scenarioError : WenyanError :=
  {| err_message := js "unexpected end"; err_line := Some 1;
     err_column := Some 13 |}.

Definition scenarioScript (text : jsstring) : option Thrown :=
  if decide (text = js "bad syntax (") then Some (IsWenyanError scenarioError)
  else None.

Definition scenarioOpen : DidOpenParams :=
  {| open_uri := js "d1"; open_languageId := js "wenyan"; open_version := 1;
     open_text := js "bad syntax (" |}.

(** An engine that throws [thrown] on every text, and one that never throws. *)
Definition always (thrown : Thrown) (text : jsstring) : option Thrown :=
  Some thrown.

Definition never (text : jsstring) : option Thrown := None.

Definition document1 : TextDocument :=
  create (js "d1") (js "wenyan") 1 (js "令 甲 为 一" ++ [10]%N ++ js "  复").

Definition server1 : Server :=
  {| documents := {[ js "d1" := document1 ]}; sent := [] |}.

End Sample.

(** ** The vocabulary of the properties *)

Module Spec.

(** What it is for a message to hold a marker: 第, then one digit or more,
    then the unit [X]. *)
Definition hasMarker (X : N) (s : jsstring) : Prop :=
  exists pre ds post,
    s = pre ++ di :: ds ++ X :: post /\ ds <> [] /\
    Forall (fun c => isDigit c = true) ds.

(** One notification more went out, for [u] with the list [ds], and the
    document store is as it was. *)
Definition publishes (sv sv' : Server) (u : jsstring) (ds : list Diagnostic)
  : Prop :=
  documents sv' = documents sv /\
  sent sv' = sent sv ++ [ {| pd_uri := u; diagnostics := ds |} ].

Definition nonNegative (r : Range) : Prop :=
  0 <= line (start r) /\ 0 <= character (start r) /\
  0 <= line (end_ r) /\ 0 <= character (end_ r).

(** The end is one column past the start, on the same line. *)
Definition oneWide (r : Range) : Prop :=
  end_ r = position0 (line (start r)) (character (start r) + 1).

(** A 1-based value, when there is one, converted to 0-based; the first line
    or column when there is none. *)
Definition zeroBased (reported : option Z) : Z :=
  match reported with
  | Some v => v - 1
  | None => 0
  end.

Definition atLeast1 (reported : option Z) : Prop :=
  match reported with
  | Some v => 1 <= v
  | None => True
  end.

(** A failure with no position: no [line], no [column], and no marker in the
    message.  Errors of other classes are never asked for one. *)
Definition noPosition (thrown : Thrown) : Prop :=
  match thrown with
  | IsWenyanError error =>
      err_line error = None /\ err_column error = None /\
      ~ hasMarker hang (err_message error) /\
      ~ hasMarker lie (err_message error)
  | OtherError _ => True
  end.

End Spec.

Import Spec.

(** ** The notifications, in the order the connection delivers them *)

Module Connection.

(** The three notifications [server.ts] registers a handler for. *)
Inductive Notification (Change : Type) :=
| DidOpen (params : DidOpenParams)
| DidChange (params_uri : jsstring) (contentChanges : list Change)
            (params_version : Z)
| DidClose (params_uri : jsstring).
Arguments DidOpen {Change} params.
Arguments DidChange {Change} params_uri contentChanges params_version.
Arguments DidClose {Change} params_uri.

(** The identifier a notification names. *)
Definition subject {Change : Type} (n : Notification Change) : jsstring :=
  match n with
  | DidOpen params => open_uri params
  | DidChange params_uri _ _ => params_uri
  | DidClose params_uri => params_uri
  end.

Section Listen.

Context {Tokens Change : Type}.
Variable tokenize : jsstring -> Outcome Tokens.
Variable parse : Tokens -> Outcome unit.
Variable update : TextDocument -> list Change -> Z -> TextDocument.

(** [connection.listen()]: each notification goes to the handler registered
    for it, and a handler runs to its end before the next one starts. *)
Definition handleA (sv : Server) (n : Notification Change) : Server :=
  match n with
  | DidOpen params => ServerA.onDidOpenTextDocument tokenize parse params sv
  | DidChange params_uri contentChanges params_version =>
      ServerA.onDidChangeTextDocument tokenize parse update
        params_uri contentChanges params_version sv
  | DidClose params_uri => ServerA.onDidCloseTextDocument params_uri sv
  end.

Definition handleB (sv : Server) (n : Notification Change) : Server :=
  match n with
  | DidOpen params => ServerB.onDidOpenTextDocument tokenize parse params sv
  | DidChange params_uri contentChanges params_version =>
      ServerB.onDidChangeTextDocument tokenize parse update
        params_uri contentChanges params_version sv
  | DidClose params_uri => ServerB.onDidCloseTextDocument params_uri sv
  end.

Definition listenA (ns : list (Notification Change)) (sv : Server) : Server :=
  fold_left handleA ns sv.

Definition listenB (ns : list (Notification Change)) (sv : Server) : Server :=
  fold_left handleB ns sv.

End Listen.

End Connection.

Import Connection.

(** ** More vocabulary *)

Module Trace.

(** Whether [u] is open after the notifications [ns], given whether it was
    open before: the last open or close of [u] decides. *)
Definition openAfter {Change : Type} (u : jsstring)
    (ns : list (Notification Change)) (before : bool) : bool :=
  fold_left
    (fun b n =>
       match n with
       | DidOpen params => if decide (open_uri params = u) then true else b
       | DidChange _ _ _ => b
       | DidClose k => if decide (k = u) then false else b
       end)
    ns before.

(** What one notification does to a store: set, set the updated snapshot
    if there is one to update, delete. *)
Definition storeAfter {Change : Type}
    (update : TextDocument -> list Change -> Z -> TextDocument)
    (docs : gmap jsstring TextDocument) (n : Notification Change)
  : gmap jsstring TextDocument :=
  match n with
  | DidOpen params =>
      <[open_uri params :=
          create (open_uri params) (open_languageId params)
                 (open_version params) (open_text params)]> docs
  | DidChange k contentChanges v =>
      match docs !! k with
      | Some document => <[k := update document contentChanges v]> docs
      | None => docs
      end
  | DidClose k => delete k docs
  end.

(** Every snapshot is stored under its own identifier. *)
Definition keyed (sv : Server) : Prop :=
  forall k d, documents sv !! k = Some d -> uri d = k.

(** A string of white space only. *)
Definition blank (s : jsstring) : Prop :=
  Forall (fun c => isWhiteSpace c = true) s.

(** No white space at either end. *)
Definition trimmed (s : jsstring) : Prop :=
  match s with
  | [] => True
  | c :: _ => isWhiteSpace c = false /\ isWhiteSpace (List.last s c) = false
  end.

End Trace.

Import Trace.

(** * Properties *)

(** ** The string built-ins *)

Example js_ascii : js "ab 1" = [97; 98; 32; 49]%N.
Proof. reflexivity. Qed.

Example js_cjk : js "第3行列" = [di; 0x33; hang; lie]%N.
Proof. reflexivity. Qed.

Example matchMarker_first :
  matchMarker hang (js "第x行，第12行第3行") = Some (js "12").
Proof. reflexivity. Qed.

Example matchMarker_none : matchMarker hang (js "第-3行 第行 第4列") = None.
Proof. reflexivity. Qed.

Example parseInt_leading_zero : parseInt (js "007") = 7.
Proof. reflexivity. Qed.

Example trim_both : trim (js "  	若 且 ") = js "若 且".
Proof. reflexivity. Qed.

Lemma startsWith_prefix (s p : jsstring) :
  startsWith s p = true <-> p `prefix_of` s.
Proof.
  revert s. induction p as [|c p IH]; intros s; simpl.
  - split; [intros _; apply prefix_nil | done].
  - destruct s as [|d s]; simpl.
    + split; [done | intros H; by apply prefix_nil_not in H].
    + rewrite andb_true_iff, N.eqb_eq, IH. split.
      * intros [-> H]. by apply prefix_cons.
      * intros H. split; [symmetry; by eapply prefix_cons_inv_1 | by eapply prefix_cons_inv_2].
Qed.

Lemma digitRun_digits (ds rest : jsstring) :
  Forall (fun c => isDigit c = true) ds ->
  digitRun (ds ++ rest) = (ds ++ (digitRun rest).1, (digitRun rest).2).
Proof.
  induction 1 as [|c ds Hc _ IH]; simpl.
  - by destruct (digitRun rest).
  - rewrite Hc, IH. reflexivity.
Qed.

Lemma digitRun_stop (c : N) (rest : jsstring) :
  isDigit c = false -> digitRun (c :: rest) = ([], c :: rest).
Proof. intros H. simpl. by rewrite H. Qed.

Lemma digitRun_spec (s : jsstring) :
  Forall (fun c => isDigit c = true) (digitRun s).1 /\
  s = (digitRun s).1 ++ (digitRun s).2.
Proof.
  induction s as [|c s [IH1 IH2]]; simpl; [by split|].
  destruct (isDigit c) eqn:Hc; [|by split].
  destruct (digitRun s) as [ds r]; simpl in *. split; [by constructor | by f_equal].
Qed.

Lemma digitRun_maximal (s : jsstring) :
  match (digitRun s).2 with
  | x :: _ => isDigit x = false
  | [] => True
  end.
Proof.
  induction s as [|c s IH]; simpl; [done|].
  destruct (isDigit c) eqn:Hc; [|done].
  by destruct (digitRun s).
Qed.

(** ** The pattern [第(\d+)X] *)

Section Marker.

Variable X : N.
Hypothesis X_not_digit : isDigit X = false.
Hypothesis X_not_di : X <> di.

Lemma matchHere_at (ds post : jsstring) :
  ds <> [] -> Forall (fun c => isDigit c = true) ds ->
  matchHere X (di :: ds ++ X :: post) = Some ds.
Proof.
  intros Hne Hds. unfold matchHere. rewrite N.eqb_refl.
  rewrite (digitRun_digits _ _ Hds), (digitRun_stop _ _ X_not_digit). simpl.
  rewrite app_nil_r. destruct ds as [|d ds]; [done|]. by rewrite N.eqb_refl.
Qed.

Lemma matchHere_Some (s g : jsstring) :
  matchHere X s = Some g ->
  exists post, s = di :: g ++ X :: post /\ g <> [] /\
               Forall (fun c => isDigit c = true) g.
Proof.
  destruct s as [|c s]; [done|]. unfold matchHere.
  destruct (N.eqb_spec c di) as [->|]; [|done].
  destruct (digitRun_spec s) as [Hds Hs].
  destruct (digitRun s) as [[|d ds] [|x r]]; simpl in *; try done.
  destruct (N.eqb_spec x X) as [->|]; [|done].
  intros [= <-]. exists r. split; [by f_equal|]. by split.
Qed.

(** A failed attempt inside [pre] still fails when a marker follows [pre]. *)
Lemma matchHere_None_app (c : N) (pre rest : jsstring) :
  matchHere X (c :: pre) = None ->
  matchHere X ((c :: pre) ++ di :: rest) = None.
Proof.
  unfold matchHere; simpl. destruct (c =? di)%N; [|done].
  destruct (digitRun_spec pre) as [Hds Hs].
  pose proof (digitRun_maximal pre) as Hmax.
  destruct (digitRun pre) as [ds r]; simpl in *. subst pre.
  rewrite <- app_assoc, (digitRun_digits _ _ Hds).
  destruct r as [|x r]; cbn [app].
  - rewrite (digitRun_stop di rest) by reflexivity. cbn [fst snd].
    rewrite app_nil_r. destruct ds; [done|].
    intros _. destruct (N.eqb_spec di X); [by subst|done].
  - rewrite (digitRun_stop x _ Hmax). cbn [fst snd]. by rewrite app_nil_r.
Qed.

(** The leftmost marker is the one found. *)
Lemma matchMarker_first_marker (pre ds post : jsstring) :
  matchMarker X pre = None ->
  ds <> [] -> Forall (fun c => isDigit c = true) ds ->
  matchMarker X (pre ++ di :: ds ++ X :: post) = Some ds.
Proof.
  intros Hpre Hne Hds. induction pre as [|c pre IH].
  - simpl app. destruct ds as [|d ds]; [done|].
    change (matchMarker X (di :: (d :: ds) ++ X :: post))
      with (match matchHere X (di :: (d :: ds) ++ X :: post) with
            | Some g => Some g
            | None => matchMarker X ((d :: ds) ++ X :: post)
            end).
    by rewrite matchHere_at.
  - change (matchMarker X (c :: pre))
      with (match matchHere X (c :: pre) with
            | Some g => Some g
            | None => matchMarker X pre
            end) in Hpre.
    destruct (matchHere X (c :: pre)) eqn:Hc; [done|].
    change (matchMarker X ((c :: pre) ++ di :: ds ++ X :: post))
      with (match matchHere X ((c :: pre) ++ di :: ds ++ X :: post) with
            | Some g => Some g
            | None => matchMarker X (pre ++ di :: ds ++ X :: post)
            end).
    rewrite (matchHere_None_app _ _ _ Hc). by apply IH.
Qed.

Lemma matchMarker_Some (s g : jsstring) :
  matchMarker X s = Some g ->
  g <> [] /\ Forall (fun c => isDigit c = true) g /\ hasMarker X s.
Proof.
  induction s as [|c s IH].
  - done.
  - change (matchMarker X (c :: s))
      with (match matchHere X (c :: s) with
            | Some g => Some g
            | None => matchMarker X s
            end).
    destruct (matchHere X (c :: s)) as [g'|] eqn:Hc.
    + intros [= ->]. destruct (matchHere_Some _ _ Hc) as (post & Hs & Hne & Hds).
      repeat split; [done..|]. exists [], g, post. by rewrite Hs.
    + intros H. destruct (IH H) as (Hne & Hds & pre & ds & post & -> & ? & ?).
      repeat split; [done..|]. by exists (c :: pre), ds, post.
Qed.

Lemma matchMarker_None (s : jsstring) :
  matchMarker X s = None <-> ~ hasMarker X s.
Proof.
  split.
  - intros HN (pre & ds & post & -> & Hne & Hds).
    induction pre as [|c pre IH].
    + simpl app in HN. destruct ds as [|d ds]; [done|].
      change (matchMarker X (di :: (d :: ds) ++ X :: post))
        with (match matchHere X (di :: (d :: ds) ++ X :: post) with
              | Some g => Some g
              | None => matchMarker X ((d :: ds) ++ X :: post)
              end) in HN.
      by rewrite matchHere_at in HN.
    + change (matchMarker X ((c :: pre) ++ di :: ds ++ X :: post))
        with (match matchHere X ((c :: pre) ++ di :: ds ++ X :: post) with
              | Some g => Some g
              | None => matchMarker X (pre ++ di :: ds ++ X :: post)
              end) in HN.
      destruct (matchHere X ((c :: pre) ++ di :: ds ++ X :: post)); [done|].
      by apply IH.
  - intros HN. destruct (matchMarker X s) as [g|] eqn:Hm; [|done].
    destruct HN. by destruct (matchMarker_Some _ _ Hm) as (_ & _ & ?).
Qed.

End Marker.

Lemma parseInt_snoc (ds : jsstring) (d : N) :
  parseInt (ds ++ [d]) = 10 * parseInt ds + (Z.of_N d - 0x30).
Proof. unfold parseInt. by rewrite fold_left_app. Qed.

Lemma parseInt_nonneg (ds : jsstring) :
  Forall (fun c => isDigit c = true) ds -> 0 <= parseInt ds.
Proof.
  induction ds as [|d ds IH] using rev_ind; intros H; [done|].
  rewrite parseInt_snoc. apply Forall_app in H as [H1 H2].
  apply Forall_inv in H2. unfold isDigit in H2.
  apply andb_true_iff in H2 as [H2 _]. apply N.leb_le in H2.
  specialize (IH H1). lia.
Qed.

(** ** The handlers *)

Section Claims.

Context {Tokens Change : Type}.
Variable tokenize : jsstring -> Outcome Tokens.
Variable parse : Tokens -> Outcome unit.
Variable getTextRange : TextDocument -> Range -> jsstring.
Variable update : TextDocument -> list Change -> Z -> TextDocument.

Lemma validateDocument_A_publishes (document : TextDocument) (sv : Server) :
  publishes sv (ServerA.validateDocument tokenize parse document sv) (uri document)
    match ServerA.tryEngine tokenize parse (getText document) with
    | None => []
    | Some (IsWenyanError error) => [ServerA.wenyanDiagnostic error]
    | Some (OtherError m) => [otherDiagnostic m]
    end.
Proof. by split. Qed.

Lemma validateDocument_B_publishes (document : TextDocument) (sv : Server) :
  publishes sv (ServerB.validateDocument tokenize parse document sv) (uri document)
    match ServerB.tryEngine tokenize parse (getText document) with
    | None => []
    | Some (IsWenyanError error) => [ServerB.wenyanDiagnostic error]
    | Some (OtherError m) => [otherDiagnostic m]
    end.
Proof. by split. Qed.

Lemma tryEngine_A_B (text : jsstring) :
  ServerB.tryEngine tokenize parse text = ServerA.tryEngine tokenize parse text.
Proof. reflexivity. Qed.

(** In [part_000] the start of the range is the reported position minus one
    whatever the reported integers are, and the end column is the reported
    column plus one unless that column is 0 or missing. *)
Lemma wenyanDiagnostic_A_range (error : WenyanError) :
  start (range (ServerA.wenyanDiagnostic error)) =
    position0 (zeroBased (err_line error)) (zeroBased (err_column error)) /\
  end_ (range (ServerA.wenyanDiagnostic error)) =
    position0 (zeroBased (err_line error))
              (match err_column error with
               | Some c => if c =? 0 then 1 else c + 1
               | None => 1
               end).
Proof.
  unfold ServerA.wenyanDiagnostic, position0, zeroBased, orZero, minus1; simpl.
  destruct (err_line error) as [l|], (err_column error) as [c|]; simpl;
    repeat match goal with
           | |- context [?x =? 0] => destruct (Z.eqb_spec x 0)
           end; split; f_equal; lia.
Qed.

(** C5: when the tokenize stage and the parse stage both return, in every
    revision [validateDocument] publishes the empty list of diagnostics for
    the document's own identifier, and nothing else. *)
Theorem C5_valid_document_publishes_empty
    (document : TextDocument) (sv : Server) (tokens : Tokens) :
  tokenize (getText document) = Returns tokens ->
  parse tokens = Returns tt ->
  publishes sv (ServerA.validateDocument tokenize parse document sv)
            (uri document) [] /\
  publishes sv (ServerB.validateDocument tokenize parse document sv)
            (uri document) [].
Proof.
  intros Htok Hparse.
  pose proof (validateDocument_A_publishes document sv) as HA.
  pose proof (validateDocument_B_publishes document sv) as HB.
  unfold ServerA.tryEngine in HA. unfold ServerB.tryEngine in HB.
  rewrite Htok, Hparse in HA, HB. by split.
Qed.

(** C6: a change notification for an identifier with no snapshot in the
    store leaves the whole state as it was, in every revision: the store is
    unchanged and no notification goes out. *)
Theorem C6_change_before_open_is_noop
    (params_uri : jsstring) (contentChanges : list Change) (params_version : Z)
    (sv : Server) :
  documents sv !! params_uri = None ->
  ServerA.onDidChangeTextDocument tokenize parse update
    params_uri contentChanges params_version sv = sv /\
  ServerB.onDidChangeTextDocument tokenize parse update
    params_uri contentChanges params_version sv = sv.
Proof.
  intros Habsent.
  unfold ServerA.onDidChangeTextDocument, ServerB.onDidChangeTextDocument.
  by rewrite Habsent.
Qed.

(** C7: a close notification removes the identifier's snapshot (the other
    snapshots stay) and publishes the empty list for that identifier, whether
    or not the document was open; in every revision. *)
Theorem C7_close_removes_and_clears (params_uri : jsstring) (sv : Server) :
  let svA := ServerA.onDidCloseTextDocument params_uri sv in
  let svB := ServerB.onDidCloseTextDocument params_uri sv in
  (documents svA = delete params_uri (documents sv) /\
   documents svA !! params_uri = None /\
   sent svA = sent sv ++ [ {| pd_uri := params_uri; diagnostics := [] |} ]) /\
  (documents svB = delete params_uri (documents sv) /\
   documents svB !! params_uri = None /\
   sent svB = sent sv ++ [ {| pd_uri := params_uri; diagnostics := [] |} ]).
Proof.
  simpl. repeat split; apply lookup_delete_eq.
Qed.

(** C9: completion resolve returns the item it was given, and touches
    nothing. *)
Theorem C9_resolve_is_identity (item : ServerB.CompletionItem) (sv : Server) :
  ServerB.onCompletionResolve item sv = (item, sv).
Proof. reflexivity. Qed.

(** C10: for an identifier with no snapshot in the store, completion answers
    the empty list (both revisions that have it), definition and hover answer
    null, and the state is returned as it was. *)
Theorem C10_requests_on_unknown_document
    (params : TextDocumentPositionParams) (sv : Server) :
  documents sv !! textDocument_uri params = None ->
  ServerA.onCompletion getTextRange params sv = ([], sv) /\
  ServerB.onCompletion getTextRange params sv = ([], sv) /\
  ServerB.onDefinition params sv = (None, sv) /\
  ServerB.onHover getTextRange params sv = (None, sv).
Proof.
  intros Habsent.
  unfold ServerA.onCompletion, ServerB.onCompletion, ServerB.onDefinition,
    ServerB.onHover.
  by rewrite Habsent.
Qed.

Lemma hang_not_digit : isDigit hang = false.
Proof. reflexivity. Qed.

Lemma lie_not_digit : isDigit lie = false.
Proof. reflexivity. Qed.

Lemma hang_not_di : hang <> di.
Proof. done. Qed.

Lemma lie_not_di : lie <> di.
Proof. done. Qed.

(** C2: when the message of a [WenyanError] holds a line marker 第N行 and a
    column marker 第M列 (the leftmost of each kind, N and M within the exact
    integers of a JavaScript number), [part_001] and [part_002] publish one
    diagnostic whose start is (N-1, M-1); the [line] and [column] fields of
    the error play no part. *)
Theorem C2_start_recovered_from_message
    (document : TextDocument) (sv : Server) (error : WenyanError)
    (preL dl postL preC dc postC : jsstring) :
  ServerB.tryEngine tokenize parse (getText document)
    = Some (IsWenyanError error) ->
  err_message error = preL ++ di :: dl ++ hang :: postL ->
  ~ hasMarker hang preL ->
  dl <> [] -> Forall (fun c => isDigit c = true) dl ->
  err_message error = preC ++ di :: dc ++ lie :: postC ->
  ~ hasMarker lie preC ->
  dc <> [] -> Forall (fun c => isDigit c = true) dc ->
  parseInt dl <= 2 ^ 53 -> parseInt dc <= 2 ^ 53 ->
  exists d,
    publishes sv (ServerB.validateDocument tokenize parse document sv)
              (uri document) [d] /\
    start (range d) = position0 (parseInt dl - 1) (parseInt dc - 1).
Proof.
  intros Hthrown HmsgL HpreL HneL HdL HmsgC HpreC HneC HdC _ _.
  pose proof (validateDocument_B_publishes document sv) as Hpub.
  rewrite Hthrown in Hpub.
  exists (ServerB.wenyanDiagnostic error). split; [exact Hpub|].
  unfold ServerB.wenyanDiagnostic; simpl.
  apply (matchMarker_None hang hang_not_digit) in HpreL.
  apply (matchMarker_None lie lie_not_digit) in HpreC.
  rewrite HmsgL at 1.
  rewrite (matchMarker_first_marker hang hang_not_digit hang_not_di
             preL dl postL HpreL HneL HdL).
  rewrite HmsgC.
  rewrite (matchMarker_first_marker lie lie_not_digit lie_not_di
             preC dc postC HpreC HneC HdC).
  reflexivity.
Qed.

(** C3: a failure with no position (a [WenyanError] with no [line], no
    [column] and no marker in its message, or an error of another class)
    yields, in every revision, one diagnostic whose range starts at (0, 0)
    and ends at (0, 1): one character wide. *)
Theorem C3_no_position_gives_document_start
    (document : TextDocument) (sv : Server) (thrown : Thrown) :
  ServerA.tryEngine tokenize parse (getText document) = Some thrown ->
  noPosition thrown ->
  exists dA dB,
    publishes sv (ServerA.validateDocument tokenize parse document sv)
              (uri document) [dA] /\
    publishes sv (ServerB.validateDocument tokenize parse document sv)
              (uri document) [dB] /\
    range dA = {| start := position0 0 0; end_ := position0 0 1 |} /\
    range dB = {| start := position0 0 0; end_ := position0 0 1 |} /\
    oneWide (range dA) /\ oneWide (range dB).
Proof.
  intros Hthrown Hno.
  pose proof (validateDocument_A_publishes document sv) as HA.
  pose proof (validateDocument_B_publishes document sv) as HB.
  rewrite tryEngine_A_B in HB. rewrite Hthrown in HA, HB.
  destruct thrown as [error|m]; simpl in Hno.
  - destruct Hno as (Hl & Hc & HmL & HmC).
    apply (matchMarker_None hang hang_not_digit) in HmL.
    apply (matchMarker_None lie lie_not_digit) in HmC.
    exists (ServerA.wenyanDiagnostic error), (ServerB.wenyanDiagnostic error).
    split; [exact HA|]. split; [exact HB|].
    unfold ServerA.wenyanDiagnostic, ServerB.wenyanDiagnostic, oneWide; simpl.
    by rewrite Hl, Hc, HmL, HmC.
  - exists (otherDiagnostic m), (otherDiagnostic m).
    split; [exact HA|]. split; [exact HB|]. done.
Qed.

Lemma nonNegative_A (error : WenyanError) :
  nonNegative (range (ServerA.wenyanDiagnostic error)) <->
  atLeast1 (err_line error) /\ atLeast1 (err_column error).
Proof.
  unfold nonNegative.
  destruct (wenyanDiagnostic_A_range error) as [-> ->]. simpl.
  destruct (err_line error) as [l|], (err_column error) as [c|]; simpl;
    try destruct (Z.eqb_spec c 0); lia.
Qed.

Lemma nonNegative_B (error : WenyanError) :
  nonNegative (range (ServerB.wenyanDiagnostic error)) <->
  atLeast1 (parseInt <$> matchMarker hang (err_message error)) /\
  atLeast1 (parseInt <$> matchMarker lie (err_message error)).
Proof.
  unfold nonNegative, ServerB.wenyanDiagnostic; simpl.
  destruct (matchMarker hang (err_message error)) as [gl|],
           (matchMarker lie (err_message error)) as [gc|]; simpl; lia.
Qed.

(** C4, as the code has it: no value is clamped.  For a [WenyanError] the
    published range is free of negative lines and columns exactly when each
    reported value is missing or at least 1: the [line] and [column] fields
    in [part_000], the numbers of the leftmost 第N行 and 第N列 in [part_001]
    and [part_002]. *)
Theorem C4_negative_unless_reported_at_least_1
    (document : TextDocument) (sv : Server) (error : WenyanError) :
  ServerA.tryEngine tokenize parse (getText document)
    = Some (IsWenyanError error) ->
  exists dA dB,
    publishes sv (ServerA.validateDocument tokenize parse document sv)
              (uri document) [dA] /\
    publishes sv (ServerB.validateDocument tokenize parse document sv)
              (uri document) [dB] /\
    (nonNegative (range dA) <->
       atLeast1 (err_line error) /\ atLeast1 (err_column error)) /\
    (nonNegative (range dB) <->
       atLeast1 (parseInt <$> matchMarker hang (err_message error)) /\
       atLeast1 (parseInt <$> matchMarker lie (err_message error))).
Proof.
  intros Hthrown.
  pose proof (validateDocument_A_publishes document sv) as HA.
  pose proof (validateDocument_B_publishes document sv) as HB.
  rewrite tryEngine_A_B in HB. rewrite Hthrown in HA, HB.
  exists (ServerA.wenyanDiagnostic error), (ServerB.wenyanDiagnostic error).
  split; [exact HA|]. split; [exact HB|].
  split; [apply nonNegative_A | apply nonNegative_B].
Qed.

Lemma filter_bool_decide {A : Type} (f : A -> bool) (P : A -> Prop)
    `{!forall x, Decision (P x)} (l : list A) :
  (forall x, f x = true <-> P x) ->
  List.filter f l = filter P l.
Proof.
  intros Hf. induction l as [|x l IH]; [done|].
  simpl. rewrite filter_cons, IH.
  destruct (f x) eqn:Hx; destruct (decide (P x)) as [HPx|HPx]; try done.
  - by apply Hf in Hx.
  - apply Hf in HPx. congruence.
Qed.

Lemma filter_all {A : Type} (P : A -> Prop) `{!forall x, Decision (P x)}
    (l : list A) :
  (forall x, P x) -> filter P l = l.
Proof.
  intros HP. induction l as [|x l IH]; [done|].
  rewrite filter_cons, IH.
  destruct (decide (P x)) as [|Hn]; [done | by destruct Hn].
Qed.

Lemma filter_none {A : Type} (P : A -> Prop) `{!forall x, Decision (P x)}
    (l : list A) :
  (forall x, x ∈ l -> ~ P x) -> filter P l = [].
Proof.
  intros HP. induction l as [|x l IH]; [done|].
  rewrite filter_cons, IH.
  - destruct (decide (P x)) as [Hx|]; [|done].
    destruct (HP x); [by left | done].
  - intros y Hy. apply HP. by right.
Qed.

(** C8: for an open document, completion in [part_001] and [part_002]
    returns the entries of the table whose label has the trimmed line prefix
    as a prefix (code unit by code unit), in the order of the table, and
    leaves the state alone; so the whole table when the trimmed prefix is
    empty, and the empty list when no label matches. *)
Theorem C8_completion_filters_table_by_prefix
    (params : TextDocumentPositionParams) (sv : Server)
    (document : TextDocument) :
  documents sv !! textDocument_uri params = Some document ->
  let typed :=
    trim (getTextRange document
            {| start := position0 (line (position params)) 0;
               end_ := position0 (line (position params))
                                 (character (position params)) |}) in
  let answer := (ServerB.onCompletion getTextRange params sv).1 in
  (ServerB.onCompletion getTextRange params sv).2 = sv /\
  answer = filter (fun k => typed `prefix_of` ServerB.label k) ServerB.keywords /\
  (typed = [] -> answer = ServerB.keywords) /\
  ((forall k, k ∈ ServerB.keywords -> ~ typed `prefix_of` ServerB.label k) ->
   answer = []).
Proof.
  intros Hopen typed answer.
  assert (answer =
          filter (fun k => typed `prefix_of` ServerB.label k) ServerB.keywords)
    as Hanswer.
  { subst answer. unfold ServerB.onCompletion. rewrite Hopen.
    cbv zeta. cbn [fst]. fold typed.
    apply filter_bool_decide. intros k.
    rewrite orb_true_iff, startsWith_prefix.
    clearbody typed. destruct typed as [|c t]; split.
    - intros _. apply prefix_nil.
    - intros _. by left.
    - by intros [|].
    - by right. }
  split; [subst answer; unfold ServerB.onCompletion; by rewrite Hopen|].
  split; [exact Hanswer|]. rewrite Hanswer. split.
  - intros ->. apply filter_all. intros k. apply prefix_nil.
  - apply filter_none.
Qed.

End Claims.

(** ** The revisions at the scenario of the first diagnostic *)

(** C1, on the code: for the [WenyanError] with line 1 and column 13,
    [part_000] publishes the range from (0, 12) to (0, 14), whose start is
    (L-1, C-1) but whose end is two columns past it; [part_001] and
    [part_002] do not read the two fields and publish (0, 0) to (0, 1). *)
Theorem C1_scenario_line_1_column_13 :
  sent (ServerA.onDidOpenTextDocument
          Sample.tokenize (Sample.parse Sample.scenarioScript)
          Sample.scenarioOpen Sample.server0)
  = [ {| pd_uri := js "d1";
         diagnostics :=
           [ {| severity := Error;
                range := {| start := position0 0 12; end_ := position0 0 14 |};
                message := js "unexpected end";
                source := js "wenyan-lsp" |} ] |} ]
  /\
  sent (ServerB.onDidOpenTextDocument
          Sample.tokenize (Sample.parse Sample.scenarioScript)
          Sample.scenarioOpen Sample.server0)
  = [ {| pd_uri := js "d1";
         diagnostics :=
           [ {| severity := Error;
                range := {| start := position0 0 0; end_ := position0 0 1 |};
                message := js "unexpected end";
                source := js "wenyan-lsp" |} ] |} ].
Proof. split; reflexivity. Qed.

(** The same error with 1-based [line] and [column] of any value at least 1:
    in [part_000] the range runs from (L-1, C-1) to (L-1, C+1). *)
Lemma wenyanDiagnostic_A_explicit (m : jsstring) (L C : Z) :
  1 <= L -> 1 <= C ->
  range (ServerA.wenyanDiagnostic
           {| err_message := m; err_line := Some L; err_column := Some C |})
  = {| start := position0 (L - 1) (C - 1); end_ := position0 (L - 1) (C + 1) |}.
Proof.
  intros HL HC.
  destruct (wenyanDiagnostic_A_range
              {| err_message := m; err_line := Some L; err_column := Some C |})
    as [Hs He].
  destruct (range _) as [s e]; simpl in *. subst s e.
  destruct (Z.eqb_spec C 0); [lia|done].
Qed.

(** C4, counterexample to clamping: a reported line 0 and column 0 are
    published as line -1 and column -1, in [part_000] (from the fields) and
    in [part_001] and [part_002] (from the message). *)
Lemma C4_reported_zero_published_negative :
  let error :=
    {| err_message := js "语法错误：第0行第0列"; err_line := Some 0;
       err_column := Some 0 |} in
  let engine := Sample.parse (Sample.always (IsWenyanError error)) in
  (exists d,
     sent (ServerA.validateDocument Sample.tokenize engine
             Sample.document1 Sample.server0)
       = [ {| pd_uri := js "d1"; diagnostics := [d] |} ] /\
     start (range d) = position0 (-1) (-1) /\ ~ nonNegative (range d)) /\
  (exists d,
     sent (ServerB.validateDocument Sample.tokenize engine
             Sample.document1 Sample.server0)
       = [ {| pd_uri := js "d1"; diagnostics := [d] |} ] /\
     start (range d) = position0 (-1) (-1) /\ ~ nonNegative (range d)).
Proof.
  split; eexists; (split; [reflexivity|]); (split; [reflexivity|]);
    intros (H & _); vm_compute in H; by apply H.
Qed.

(** ** The theorems at concrete inputs *)

Example completion_of_fu :
  (ServerB.onCompletion Sample.getTextRange
     {| textDocument_uri := js "d1"; position := position0 1 3 |}
     Sample.server1).1
  = [ ServerB.item "复行" ServerB.Keyword "重复执行" "重复执行代码块" ].
Proof. vm_compute. reflexivity. Qed.

(** The life of [d1] in [part_001]: opened with a text the engine rejects,
    changed to a text it accepts, closed; and a change after the close. *)
Example open_change_close :
  let engine := Sample.parse Sample.scenarioScript in
  let sv1 :=
    ServerB.onDidOpenTextDocument Sample.tokenize engine
      Sample.scenarioOpen Sample.server0 in
  let sv2 :=
    ServerB.onDidChangeTextDocument Sample.tokenize engine Sample.update
      (js "d1") [js "令 甲 为 一"] 2 sv1 in
  let sv3 := ServerB.onDidCloseTextDocument (js "d1") sv2 in
  let sv4 :=
    ServerB.onDidChangeTextDocument Sample.tokenize engine Sample.update
      (js "d1") [js "bad syntax ("] 3 sv3 in
  map diagnostics (sent sv4)
    = [ [ {| severity := Error;
             range := {| start := position0 0 0; end_ := position0 0 1 |};
             message := js "unexpected end";
             source := js "wenyan-lsp" |} ]; []; [] ] /\
  map pd_uri (sent sv4) = [js "d1"; js "d1"; js "d1"] /\
  documents sv2 !! js "d1" = Some (create (js "d1") (js "wenyan") 2 (js "令 甲 为 一")) /\
  documents sv4 !! js "d1" = None.
Proof. vm_compute. done. Qed.

Lemma C2_witness :
  let error :=
    {| err_message := js "语法错误：第3行，第5列"; err_line := None;
       err_column := None |} in
  exists d,
    publishes Sample.server0
      (ServerB.validateDocument Sample.tokenize
         (Sample.parse (Sample.always (IsWenyanError error)))
         Sample.document1 Sample.server0)
      (js "d1") [d] /\
    start (range d) = position0 2 4.
Proof.
  intros error.
  apply (C2_start_recovered_from_message Sample.tokenize
           (Sample.parse (Sample.always (IsWenyanError error)))
           Sample.document1 Sample.server0 error
           (js "语法错误：") (js "3") (js "，第5列")
           (js "语法错误：第3行，") (js "5") []).
  - reflexivity.
  - reflexivity.
  - apply (matchMarker_None hang hang_not_digit). reflexivity.
  - discriminate.
  - repeat constructor.
  - reflexivity.
  - apply (matchMarker_None lie lie_not_digit). reflexivity.
  - discriminate.
  - repeat constructor.
  - vm_compute. discriminate.
  - vm_compute. discriminate.
Defined.

Lemma C3_witness :
  let error :=
    {| err_message := js "unexpected end"; err_line := None;
       err_column := None |} in
  let engine := Sample.parse (Sample.always (IsWenyanError error)) in
  noPosition (IsWenyanError error) /\
  exists dA dB,
    publishes Sample.server0
      (ServerA.validateDocument Sample.tokenize engine
         Sample.document1 Sample.server0) (js "d1") [dA] /\
    publishes Sample.server0
      (ServerB.validateDocument Sample.tokenize engine
         Sample.document1 Sample.server0) (js "d1") [dB] /\
    range dA = {| start := position0 0 0; end_ := position0 0 1 |} /\
    range dB = {| start := position0 0 0; end_ := position0 0 1 |} /\
    oneWide (range dA) /\ oneWide (range dB).
Proof.
  intros error engine.
  assert (noPosition (IsWenyanError error)) as Hno.
  { repeat split.
    - apply (matchMarker_None hang hang_not_digit). reflexivity.
    - apply (matchMarker_None lie lie_not_digit). reflexivity. }
  split; [exact Hno|].
  apply (C3_no_position_gives_document_start Sample.tokenize engine
           Sample.document1 Sample.server0 (IsWenyanError error));
    [reflexivity | exact Hno].
Defined.

Lemma C4_witness :
  let engine :=
    Sample.parse (Sample.always (IsWenyanError Sample.scenarioError)) in
  exists dA dB,
    publishes Sample.server0
      (ServerA.validateDocument Sample.tokenize engine
         Sample.document1 Sample.server0) (js "d1") [dA] /\
    publishes Sample.server0
      (ServerB.validateDocument Sample.tokenize engine
         Sample.document1 Sample.server0) (js "d1") [dB] /\
    (nonNegative (range dA) <-> 1 <= 1 /\ 1 <= 13) /\
    (nonNegative (range dB) <-> True /\ True).
Proof.
  intros engine.
  apply (C4_negative_unless_reported_at_least_1 Sample.tokenize engine
           Sample.document1 Sample.server0 Sample.scenarioError).
  reflexivity.
Defined.

Lemma C5_witness :
  publishes Sample.server0
    (ServerA.validateDocument Sample.tokenize (Sample.parse Sample.never)
       Sample.document1 Sample.server0) (js "d1") [] /\
  publishes Sample.server0
    (ServerB.validateDocument Sample.tokenize (Sample.parse Sample.never)
       Sample.document1 Sample.server0) (js "d1") [].
Proof.
  apply (C5_valid_document_publishes_empty Sample.tokenize
           (Sample.parse Sample.never) Sample.document1 Sample.server0
           (getText Sample.document1)); reflexivity.
Defined.

Lemma C6_witness :
  documents Sample.server0 !! js "d1" = None /\
  ServerA.onDidChangeTextDocument Sample.tokenize (Sample.parse Sample.never)
    Sample.update (js "d1") [js "令 甲 为 二"] 2 Sample.server0
  = Sample.server0 /\
  ServerB.onDidChangeTextDocument Sample.tokenize (Sample.parse Sample.never)
    Sample.update (js "d1") [js "令 甲 为 二"] 2 Sample.server0
  = Sample.server0.
Proof.
  split; [reflexivity|].
  apply (C6_change_before_open_is_noop Sample.tokenize
           (Sample.parse Sample.never) Sample.update). reflexivity.
Defined.

Lemma C8_witness :
  let params := {| textDocument_uri := js "d1"; position := position0 1 3 |} in
  let answer :=
    (ServerB.onCompletion Sample.getTextRange params Sample.server1).1 in
  documents Sample.server1 !! js "d1" = Some Sample.document1 /\
  (ServerB.onCompletion Sample.getTextRange params Sample.server1).2
    = Sample.server1 /\
  answer = filter (fun k => js "复" `prefix_of` ServerB.label k) ServerB.keywords /\
  (js "复" = [] -> answer = ServerB.keywords) /\
  ((forall k, k ∈ ServerB.keywords -> ~ js "复" `prefix_of` ServerB.label k) ->
   answer = []).
Proof.
  intros params answer.
  split; [reflexivity|].
  apply (C8_completion_filters_table_by_prefix Sample.getTextRange params
           Sample.server1 Sample.document1). reflexivity.
Defined.

Lemma C10_witness :
  let params := {| textDocument_uri := js "d1"; position := position0 0 1 |} in
  documents Sample.server0 !! js "d1" = None /\
  ServerA.onCompletion Sample.getTextRange params Sample.server0
    = ([], Sample.server0) /\
  ServerB.onCompletion Sample.getTextRange params Sample.server0
    = ([], Sample.server0) /\
  ServerB.onDefinition params Sample.server0 = (None, Sample.server0) /\
  ServerB.onHover Sample.getTextRange params Sample.server0
    = (None, Sample.server0).
Proof.
  intros params. split; [reflexivity|].
  apply (C10_requests_on_unknown_document Sample.getTextRange params
           Sample.server0). reflexivity.
Defined.

(** * Further properties of the handlers *)

Section Validation.

Context {Tokens : Type}.
Variable tokenize : jsstring -> Outcome Tokens.
Variable parse : Tokens -> Outcome unit.


(** X2: whatever the engine throws, the diagnostic has severity Error and
    source [wenyan-lsp]; for a [WenyanError] its message is the error's
    message, unchanged. *)
Theorem X2_severity_source_message
    (document : TextDocument) (sv : Server) (thrown : Thrown) :
  ServerA.tryEngine tokenize parse (getText document) = Some thrown ->
  exists dA dB,
    publishes sv (ServerA.validateDocument tokenize parse document sv)
              (uri document) [dA] /\
    publishes sv (ServerB.validateDocument tokenize parse document sv)
              (uri document) [dB] /\
    severity dA = Error /\ severity dB = Error /\
    source dA = js "wenyan-lsp" /\ source dB = js "wenyan-lsp" /\
    message dA = message dB /\
    (forall error, thrown = IsWenyanError error ->
                   message dA = err_message error).
Proof.
  intros Hthrown.
  pose proof (validateDocument_A_publishes tokenize parse document sv) as HA.
  pose proof (validateDocument_B_publishes tokenize parse document sv) as HB.
  rewrite tryEngine_A_B in HB. rewrite Hthrown in HA, HB.
  destruct thrown as [error|m]; do 2 eexists;
    (split; [exact HA|]); (split; [exact HB|]);
    repeat split; by intros ? [= <-].
Qed.

(** X3: for an error of another class the message shown is never empty: it
    is the error's message when that is a non-empty string, and 未知错误 when
    it is undefined or the empty string; the range is (0,0)-(0,1) whatever
    the message says, markers included. *)
Theorem X3_other_error_fallback_message
    (document : TextDocument) (sv : Server) (m : option jsstring) :
  ServerB.tryEngine tokenize parse (getText document) = Some (OtherError m) ->
  exists d,
    publishes sv (ServerA.validateDocument tokenize parse document sv)
              (uri document) [d] /\
    publishes sv (ServerB.validateDocument tokenize parse document sv)
              (uri document) [d] /\
    message d <> [] /\
    (forall s, m = Some s -> s <> [] -> message d = s) /\
    (m = None \/ m = Some [] -> message d = js "未知错误") /\
    range d = {| start := position0 0 0; end_ := position0 0 1 |}.
Proof.
  intros Hthrown.
  pose proof (validateDocument_A_publishes tokenize parse document sv) as HA.
  pose proof (validateDocument_B_publishes tokenize parse document sv) as HB.
  rewrite Hthrown in HB. rewrite <- tryEngine_A_B, Hthrown in HA.
  exists (otherDiagnostic m). split; [exact HA|]. split; [exact HB|].
  unfold otherDiagnostic; simpl. repeat split.
  - destruct m as [[|c s]|]; done.
  - intros s -> Hs. by destruct s.
  - by intros [->| ->].
Qed.

(** X4: when the lexer throws, the parser has no say: the pass ends the same
    whatever parser is plugged in. *)
Theorem X4_lexer_failure_skips_parser
    (parse' : Tokens -> Outcome unit)
    (document : TextDocument) (sv : Server) (e : Thrown) :
  tokenize (getText document) = Throws e ->
  ServerA.validateDocument tokenize parse document sv
    = ServerA.validateDocument tokenize parse' document sv /\
  ServerB.validateDocument tokenize parse document sv
    = ServerB.validateDocument tokenize parse' document sv.
Proof.
  intros Hlex.
  unfold ServerA.validateDocument, ServerB.validateDocument,
    ServerA.tryEngine, ServerB.tryEngine.
  by rewrite Hlex.
Qed.

(** X5: in [part_001] and [part_002] every diagnostic of a [WenyanError]
    whose markers, if any, hold numbers within the exact integers of a
    JavaScript number is one column wide on a single line, and neither its
    line nor its column is below -1. *)
Theorem X5_message_position_bounds (error : WenyanError) :
  (forall g, matchMarker hang (err_message error) = Some g ->
             parseInt g <= 2 ^ 53) ->
  (forall g, matchMarker lie (err_message error) = Some g ->
             parseInt g <= 2 ^ 53) ->
  let r := range (ServerB.wenyanDiagnostic error) in
  oneWide r /\ -1 <= line (start r) /\ -1 <= character (start r).
Proof.
  intros _ _.
  unfold ServerB.wenyanDiagnostic, oneWide; simpl.
  split; [done|].
  split.
  - destruct (matchMarker hang (err_message error)) as [g|] eqn:Hg; simpl; [|lia].
    apply (matchMarker_Some hang) in Hg as (_ & Hd & _).
    apply parseInt_nonneg in Hd. lia.
  - destruct (matchMarker lie (err_message error)) as [g|] eqn:Hg; simpl; [|lia].
    apply (matchMarker_Some lie) in Hg as (_ & Hd & _).
    apply parseInt_nonneg in Hd. lia.
Qed.

(** X6: the two markers are looked for independently: a message with a line
    marker 第N行 and no column marker is placed at column 0 of line N-1, and
    one with a column marker 第M列 and no line marker at column M-1 of
    line 0 (N and M within the exact integers of a JavaScript number). *)
Theorem X6_one_marker_only
    (error : WenyanError) (pre ds post : jsstring) :
  ds <> [] -> Forall (fun c => isDigit c = true) ds ->
  parseInt ds <= 2 ^ 53 ->
  (err_message error = pre ++ di :: ds ++ hang :: post ->
   ~ hasMarker hang pre -> ~ hasMarker lie (err_message error) ->
   range (ServerB.wenyanDiagnostic error)
   = {| start := position0 (parseInt ds - 1) 0;
        end_ := position0 (parseInt ds - 1) 1 |}) /\
  (err_message error = pre ++ di :: ds ++ lie :: post ->
   ~ hasMarker lie pre -> ~ hasMarker hang (err_message error) ->
   range (ServerB.wenyanDiagnostic error)
   = {| start := position0 0 (parseInt ds - 1);
        end_ := position0 0 (parseInt ds - 1 + 1) |}).
Proof.
  intros Hne Hds _. split; intros Hmsg Hpre Hno.
  - apply (matchMarker_None hang hang_not_digit) in Hpre.
    apply (matchMarker_None lie lie_not_digit) in Hno.
    unfold ServerB.wenyanDiagnostic. rewrite Hno. rewrite Hmsg.
    by rewrite (matchMarker_first_marker hang hang_not_digit hang_not_di
                  pre ds post Hpre Hne Hds).
  - apply (matchMarker_None lie lie_not_digit) in Hpre.
    apply (matchMarker_None hang hang_not_digit) in Hno.
    unfold ServerB.wenyanDiagnostic. rewrite Hno. rewrite Hmsg.
    by rewrite (matchMarker_first_marker lie lie_not_digit lie_not_di
                  pre ds post Hpre Hne Hds).
Qed.

End Validation.

Section Lifecycle.

Context {Tokens Change : Type}.
Variable tokenize : jsstring -> Outcome Tokens.
Variable parse : Tokens -> Outcome unit.
Variable update : TextDocument -> list Change -> Z -> TextDocument.

Lemma validateDocument_A_documents (document : TextDocument) (sv : Server) :
  documents (ServerA.validateDocument tokenize parse document sv) = documents sv.
Proof. reflexivity. Qed.

Lemma validateDocument_B_documents (document : TextDocument) (sv : Server) :
  documents (ServerB.validateDocument tokenize parse document sv) = documents sv.
Proof. reflexivity. Qed.

Lemma handleA_documents (sv : Server) (n : Notification Change) :
  documents (handleA tokenize parse update sv n) = storeAfter update (documents sv) n.
Proof.
  destruct n as [params|k c v|k]; simpl; try done.
  unfold ServerA.onDidChangeTextDocument. by destruct (documents sv !! k).
Qed.

Lemma handleB_documents (sv : Server) (n : Notification Change) :
  documents (handleB tokenize parse update sv n) = storeAfter update (documents sv) n.
Proof.
  destruct n as [params|k c v|k]; simpl; try done.
  unfold ServerB.onDidChangeTextDocument. by destruct (documents sv !! k).
Qed.

Lemma handleA_B_documents (svA svB : Server) (n : Notification Change) :
  documents svA = documents svB ->
  documents (handleA tokenize parse update svA n)
  = documents (handleB tokenize parse update svB n).
Proof. intros H. by rewrite handleA_documents, handleB_documents, H. Qed.




(** X10: once a document is closed, a change for it does nothing at all:
    no validation, no notification, until it is opened again. *)
Theorem X10_change_after_close_is_noop
    (params_uri : jsstring) (contentChanges : list Change) (params_version : Z)
    (sv : Server) :
  ServerA.onDidChangeTextDocument tokenize parse update
    params_uri contentChanges params_version
    (ServerA.onDidCloseTextDocument params_uri sv)
  = ServerA.onDidCloseTextDocument params_uri sv /\
  ServerB.onDidChangeTextDocument tokenize parse update
    params_uri contentChanges params_version
    (ServerB.onDidCloseTextDocument params_uri sv)
  = ServerB.onDidCloseTextDocument params_uri sv.
Proof.
  unfold ServerA.onDidChangeTextDocument, ServerB.onDidChangeTextDocument.
  simpl. by rewrite lookup_delete_eq.
Qed.

Lemma validateDocument_A_shape (document : TextDocument) (sv : Server) :
  exists ds,
    sent (ServerA.validateDocument tokenize parse document sv)
    = sent sv ++ [ {| pd_uri := uri document; diagnostics := ds |} ] /\
    (length ds <= 1)%nat.
Proof.
  unfold ServerA.validateDocument. eexists. split; [reflexivity|].
  destruct (ServerA.tryEngine _ _ _) as [[e|m]|]; simpl; lia.
Qed.

Lemma validateDocument_B_shape (document : TextDocument) (sv : Server) :
  exists ds,
    sent (ServerB.validateDocument tokenize parse document sv)
    = sent sv ++ [ {| pd_uri := uri document; diagnostics := ds |} ] /\
    (length ds <= 1)%nat.
Proof.
  unfold ServerB.validateDocument. eexists. split; [reflexivity|].
  destruct (ServerB.tryEngine _ _ _) as [[e|m]|]; simpl; lia.
Qed.

(** What one notification adds to the notifications sent: nothing, or one
    notification with at most one diagnostic, for the identifier of the
    snapshot validated or closed. *)
Lemma handleA_sent (sv : Server) (n : Notification Change) :
  exists new,
    sent (handleA tokenize parse update sv n) = sent sv ++ new /\
    (length new <= 1)%nat /\
    Forall (fun p => (length (diagnostics p) <= 1)%nat) new /\
    Forall (fun p =>
              pd_uri p = subject n \/
              exists d, documents (handleA tokenize parse update sv n)
                          !! subject n = Some d /\ pd_uri p = uri d) new.
Proof.
  destruct n as [params|k c v|k]; simpl.
  - destruct (validateDocument_A_shape
                (create (open_uri params) (open_languageId params)
                        (open_version params) (open_text params))
                (documents_set (open_uri params)
                   (create (open_uri params) (open_languageId params)
                           (open_version params) (open_text params)) sv))
      as (ds & Hs & Hlen).
    eexists. split; [exact Hs|]. split; [done|].
    split; constructor; try done. by left.
  - unfold ServerA.onDidChangeTextDocument.
    destruct (documents sv !! k) as [d|].
    + destruct (validateDocument_A_shape
                  (update d c v) (documents_set k (update d c v) sv))
        as (ds & Hs & Hlen).
      eexists. split; [exact Hs|]. split; [done|].
      split; constructor; try done. right. exists (update d c v).
      split; [apply lookup_insert_eq | done].
    + exists []. rewrite app_nil_r. repeat split; try done. simpl; lia.
  - eexists. split; [reflexivity|]. split; [done|].
    split; constructor; try done; [simpl; lia | by left].
Qed.

Lemma handleB_sent (sv : Server) (n : Notification Change) :
  exists new,
    sent (handleB tokenize parse update sv n) = sent sv ++ new /\
    (length new <= 1)%nat /\
    Forall (fun p => (length (diagnostics p) <= 1)%nat) new /\
    Forall (fun p =>
              pd_uri p = subject n \/
              exists d, documents (handleB tokenize parse update sv n)
                          !! subject n = Some d /\ pd_uri p = uri d) new.
Proof.
  destruct n as [params|k c v|k]; simpl.
  - destruct (validateDocument_B_shape
                (create (open_uri params) (open_languageId params)
                        (open_version params) (open_text params))
                (documents_set (open_uri params)
                   (create (open_uri params) (open_languageId params)
                           (open_version params) (open_text params)) sv))
      as (ds & Hs & Hlen).
    eexists. split; [exact Hs|]. split; [done|].
    split; constructor; try done. by left.
  - unfold ServerB.onDidChangeTextDocument.
    destruct (documents sv !! k) as [d|].
    + destruct (validateDocument_B_shape
                  (update d c v) (documents_set k (update d c v) sv))
        as (ds & Hs & Hlen).
      eexists. split; [exact Hs|]. split; [done|].
      split; constructor; try done. right. exists (update d c v).
      split; [apply lookup_insert_eq | done].
    + exists []. rewrite app_nil_r. repeat split; try done. simpl; lia.
  - eexists. split; [reflexivity|]. split; [done|].
    split; constructor; try done; [simpl; lia | by left].
Qed.

Lemma listenA_documents (ns : list (Notification Change)) (sv : Server) :
  documents (listenA tokenize parse update ns sv)
  = fold_left (storeAfter update) ns (documents sv).
Proof.
  unfold listenA. revert sv. induction ns as [|n ns IH]; intros sv; [done|].
  simpl. by rewrite IH, handleA_documents.
Qed.

Lemma listenB_documents (ns : list (Notification Change)) (sv : Server) :
  documents (listenB tokenize parse update ns sv)
  = fold_left (storeAfter update) ns (documents sv).
Proof.
  unfold listenB. revert sv. induction ns as [|n ns IH]; intros sv; [done|].
  simpl. by rewrite IH, handleB_documents.
Qed.

(** X11: over any run of notifications the list of notifications sent only
    grows at its end, by at most one notification per notification received,
    each carrying at most one diagnostic. *)
Theorem X11_sent_grows_by_at_most_one
    (ns : list (Notification Change)) (sv : Server) :
  (exists new,
     sent (listenA tokenize parse update ns sv) = sent sv ++ new /\
     (length new <= length ns)%nat /\
     Forall (fun p => (length (diagnostics p) <= 1)%nat) new) /\
  (exists new,
     sent (listenB tokenize parse update ns sv) = sent sv ++ new /\
     (length new <= length ns)%nat /\
     Forall (fun p => (length (diagnostics p) <= 1)%nat) new).
Proof.
  unfold listenA, listenB. split.
  - revert sv. induction ns as [|n ns IH]; intros sv.
    + exists []. rewrite app_nil_r. by repeat split.
    + destruct (handleA_sent sv n) as (new1 & Hs1 & Hl1 & Hd1 & _).
      destruct (IH (handleA tokenize parse update sv n))
        as (new2 & Hs2 & Hl2 & Hd2).
      exists (new1 ++ new2). simpl.
      rewrite Hs2, Hs1, <- app_assoc. split; [done|].
      split; [rewrite length_app; simpl; lia | by apply Forall_app].
  - revert sv. induction ns as [|n ns IH]; intros sv.
    + exists []. rewrite app_nil_r. by repeat split.
    + destruct (handleB_sent sv n) as (new1 & Hs1 & Hl1 & Hd1 & _).
      destruct (IH (handleB tokenize parse update sv n))
        as (new2 & Hs2 & Hl2 & Hd2).
      exists (new1 ++ new2). simpl.
      rewrite Hs2, Hs1, <- app_assoc. split; [done|].
      split; [rewrite length_app; simpl; lia | by apply Forall_app].
Qed.

Lemma storeAfter_open (u : jsstring) (n : Notification Change)
    (docs : gmap jsstring TextDocument) (b : bool) :
  (is_Some (docs !! u) <-> b = true) ->
  is_Some (storeAfter update docs n !! u) <->
  match n with
  | DidOpen params => if decide (open_uri params = u) then true else b
  | DidChange _ _ _ => b
  | DidClose k => if decide (k = u) then false else b
  end = true.
Proof.
  intros Hb. destruct n as [params|k c v|k]; simpl.
  - destruct (decide (open_uri params = u)) as [->|Hne].
    + rewrite lookup_insert_eq. split; [done | by eexists].
    + by rewrite lookup_insert_ne.
  - destruct (docs !! k) as [d|] eqn:Hk; [|done].
    destruct (decide (k = u)) as [->|Hne].
    + rewrite lookup_insert_eq. rewrite <- Hb, Hk. split; by eexists.
    + by rewrite lookup_insert_ne.
  - destruct (decide (k = u)) as [->|Hne].
    + rewrite lookup_delete_eq. split; [by intros [? ?] | done].
    + by rewrite lookup_delete_ne.
Qed.

Lemma fold_storeAfter_open (u : jsstring) (ns : list (Notification Change))
    (docs : gmap jsstring TextDocument) (b : bool) :
  (is_Some (docs !! u) <-> b = true) ->
  is_Some (fold_left (storeAfter update) ns docs !! u) <->
  openAfter u ns b = true.
Proof.
  revert docs b. induction ns as [|n ns IH]; intros docs b Hb; [done|].
  simpl. unfold openAfter in *. simpl. apply IH.
  by apply storeAfter_open.
Qed.

(** X12: after any run of notifications a document is in the store exactly
    when the last open or close naming it was an open (or, if none named it,
    when it was there before); changes never add or remove a document. *)
Theorem X12_open_documents_after_run
    (u : jsstring) (ns : list (Notification Change)) (sv : Server) :
  (is_Some (documents (listenA tokenize parse update ns sv) !! u) <->
   openAfter u ns (bool_decide (is_Some (documents sv !! u))) = true) /\
  (is_Some (documents (listenB tokenize parse update ns sv) !! u) <->
   openAfter u ns (bool_decide (is_Some (documents sv !! u))) = true).
Proof.
  rewrite listenA_documents, listenB_documents.
  split; apply fold_storeAfter_open; by rewrite bool_decide_eq_true.
Qed.

(** X13: the revisions differ in what a diagnostic says, not in what the
    server keeps or whom it notifies: after the same run from the same state
    they hold the same store and have sent notifications for the same
    identifiers in the same order. *)
Theorem X13_revisions_agree_on_store_and_identifiers
    (ns : list (Notification Change)) (sv : Server) :
  documents (listenA tokenize parse update ns sv)
  = documents (listenB tokenize parse update ns sv) /\
  map pd_uri (sent (listenA tokenize parse update ns sv))
  = map pd_uri (sent (listenB tokenize parse update ns sv)).
Proof.
  split; [by rewrite listenA_documents, listenB_documents|].
  assert (forall svA svB,
            documents svA = documents svB ->
            map pd_uri (sent svA) = map pd_uri (sent svB) ->
            map pd_uri (sent (listenA tokenize parse update ns svA))
            = map pd_uri (sent (listenB tokenize parse update ns svB))) as H.
  { unfold listenA, listenB.
    induction ns as [|n ns IH]; intros svA svB Hd Hs; [done|].
    simpl. apply IH; [by apply handleA_B_documents|].
    destruct n as [params|k c v|k]; simpl.
    - by rewrite !map_app, Hs.
    - unfold ServerA.onDidChangeTextDocument, ServerB.onDidChangeTextDocument.
      rewrite Hd. destruct (documents svB !! k); [|done].
      simpl. by rewrite !map_app, Hs.
    - by rewrite !map_app, Hs. }
  by apply H.
Qed.

Lemma storeAfter_keyed (n : Notification Change)
    (docs : gmap jsstring TextDocument) :
  (forall d c v, uri (update d c v) = uri d) ->
  (forall k d, docs !! k = Some d -> uri d = k) ->
  forall k d, storeAfter update docs n !! k = Some d -> uri d = k.
Proof.
  intros Hupd Hkeyed k d. destruct n as [params|k' c v|k']; simpl.
  - destruct (decide (open_uri params = k)) as [<-|Hne].
    + rewrite lookup_insert_eq. by intros [= <-].
    + rewrite lookup_insert_ne by done. apply Hkeyed.
  - destruct (docs !! k') as [d'|] eqn:Hk'; [|apply Hkeyed].
    destruct (decide (k' = k)) as [<-|Hne].
    + rewrite lookup_insert_eq. intros [= <-]. rewrite Hupd. by apply Hkeyed.
    + rewrite lookup_insert_ne by done. apply Hkeyed.
  - destruct (decide (k' = k)) as [<-|Hne].
    + by rewrite lookup_delete_eq.
    + rewrite lookup_delete_ne by done. apply Hkeyed.
Qed.

Lemma listenA_keyed_subjects (ns : list (Notification Change)) (sv : Server) :
  (forall d c v, uri (update d c v) = uri d) ->
  keyed sv ->
  keyed (listenA tokenize parse update ns sv) /\
  exists new,
    sent (listenA tokenize parse update ns sv) = sent sv ++ new /\
    Forall (fun p => pd_uri p ∈ map subject ns) new.
Proof.
  intros Hupd. unfold listenA.
  revert sv. induction ns as [|n ns IH]; intros sv Hkeyed.
  - split; [done|]. exists []. by rewrite app_nil_r.
  - assert (keyed (handleA tokenize parse update sv n)) as Hkeyed1.
    { intros k d. rewrite handleA_documents. by apply storeAfter_keyed. }
    destruct (IH _ Hkeyed1) as (Hk2 & new2 & Hs2 & Hu2).
    split; [exact Hk2|].
    destruct (handleA_sent sv n) as (new1 & Hs1 & _ & _ & Hu1).
    exists (new1 ++ new2). simpl.
    rewrite Hs2, Hs1, <- app_assoc. split; [done|].
    apply Forall_app. split.
    + eapply Forall_impl; [exact Hu1|]. intros p [->|(d & Hd & ->)].
      * by left.
      * rewrite (Hkeyed1 _ _ Hd). by left.
    + eapply Forall_impl; [exact Hu2|]. intros p Hp. by right.
Qed.

Lemma listenB_keyed_subjects (ns : list (Notification Change)) (sv : Server) :
  (forall d c v, uri (update d c v) = uri d) ->
  keyed sv ->
  keyed (listenB tokenize parse update ns sv) /\
  exists new,
    sent (listenB tokenize parse update ns sv) = sent sv ++ new /\
    Forall (fun p => pd_uri p ∈ map subject ns) new.
Proof.
  intros Hupd. unfold listenB.
  revert sv. induction ns as [|n ns IH]; intros sv Hkeyed.
  - split; [done|]. exists []. by rewrite app_nil_r.
  - assert (keyed (handleB tokenize parse update sv n)) as Hkeyed1.
    { intros k d. rewrite handleB_documents. by apply storeAfter_keyed. }
    destruct (IH _ Hkeyed1) as (Hk2 & new2 & Hs2 & Hu2).
    split; [exact Hk2|].
    destruct (handleB_sent sv n) as (new1 & Hs1 & _ & _ & Hu1).
    exists (new1 ++ new2). simpl.
    rewrite Hs2, Hs1, <- app_assoc. split; [done|].
    apply Forall_app. split.
    + eapply Forall_impl; [exact Hu1|]. intros p [->|(d & Hd & ->)].
      * by left.
      * rewrite (Hkeyed1 _ _ Hd). by left.
    + eapply Forall_impl; [exact Hu2|]. intros p Hp. by right.
Qed.

(** X14: if the library's update keeps a document's identifier, then every
    snapshot stays stored under its own identifier through any run of
    notifications. *)
Theorem X14_snapshots_stay_under_their_identifier
    (ns : list (Notification Change)) (sv : Server) :
  (forall d c v, uri (update d c v) = uri d) ->
  keyed sv ->
  keyed (listenA tokenize parse update ns sv) /\
  keyed (listenB tokenize parse update ns sv).
Proof.
  intros Hupd Hkeyed. split.
  - by apply listenA_keyed_subjects.
  - by apply listenB_keyed_subjects.
Qed.

(** X15: under the same two conditions, every notification the server sends
    during a run is for an identifier that one of the notifications received
    names: the server never publishes for a document the client did not
    mention. *)
Theorem X15_publishes_only_for_named_documents
    (ns : list (Notification Change)) (sv : Server) :
  (forall d c v, uri (update d c v) = uri d) ->
  keyed sv ->
  (exists new,
     sent (listenA tokenize parse update ns sv) = sent sv ++ new /\
     Forall (fun p => pd_uri p ∈ map subject ns) new) /\
  (exists new,
     sent (listenB tokenize parse update ns sv) = sent sv ++ new /\
     Forall (fun p => pd_uri p ∈ map subject ns) new).
Proof.
  intros Hupd Hkeyed. split.
  - by apply listenA_keyed_subjects.
  - by apply listenB_keyed_subjects.
Qed.

End Lifecycle.

(** ** [trim] *)

Lemma trimStart_split (s : jsstring) :
  exists w, s = w ++ trimStart s /\ blank w.
Proof.
  induction s as [|c s (w & Hs & Hw)]; simpl.
  - exists []. split; [done | constructor].
  - destruct (isWhiteSpace c) eqn:Hc.
    + exists (c :: w). split; [simpl; by f_equal | by constructor].
    + exists []. split; [done | constructor].
Qed.

Lemma trimStart_head (s : jsstring) :
  match trimStart s with
  | [] => blank s
  | c :: _ => isWhiteSpace c = false
  end.
Proof.
  induction s as [|c s IH]; simpl; [by constructor|].
  destruct (isWhiteSpace c) eqn:Hc; [|done].
  destruct (trimStart s); [by constructor | done].
Qed.

Lemma trimStart_blank_app (w t : jsstring) :
  blank w -> trimStart (w ++ t) = trimStart t.
Proof. induction 1 as [|c w Hc _ IH]; simpl; [done | by rewrite Hc]. Qed.

Lemma trimStart_app (s t : jsstring) :
  trimStart s <> [] -> trimStart (s ++ t) = trimStart s ++ t.
Proof.
  induction s as [|c s IH]; simpl; [done|].
  by destruct (isWhiteSpace c).
Qed.

Lemma blank_rev (w : jsstring) : blank w -> blank (rev w).
Proof. apply List.Forall_rev. Qed.

(** White space around a string does not change what [trim] returns. *)
Lemma trim_blank_app (w1 s w2 : jsstring) :
  blank w1 -> blank w2 -> trim (w1 ++ s ++ w2) = trim s.
Proof.
  intros H1 H2. unfold trim. rewrite (trimStart_blank_app _ _ H1).
  destruct (trimStart s) as [|c t] eqn:Hs.
  - pose proof (trimStart_head s) as Hb. rewrite Hs in Hb.
    pose proof (trimStart_blank_app (s ++ w2) [] ) as Hall.
    rewrite app_nil_r in Hall. rewrite Hall; [done|].
    by apply Forall_app.
  - rewrite trimStart_app by by rewrite Hs.
    rewrite Hs, rev_app_distr, trimStart_blank_app; [done|].
    by apply blank_rev.
Qed.

Lemma trim_trimmed (s : jsstring) : trimmed (trim s).
Proof.
  unfold trim.
  destruct (trimStart_split (rev (trimStart s))) as (w & Hw & _).
  pose proof (trimStart_head (rev (trimStart s))) as Hh.
  destruct (trimStart (rev (trimStart s))) as [|c b]; [done|].
  pose proof (trimStart_head s) as Ha.
  assert (trimStart s = rev b ++ c :: rev w) as Hrev.
  { rewrite <- (rev_involutive (trimStart s)), Hw, rev_app_distr. simpl.
    by rewrite <- app_assoc. }
  simpl rev. unfold trimmed.
  destruct (rev b ++ [c]) as [|x r] eqn:Hx; [done|].
  split.
  - rewrite Hrev in Ha.
    replace (rev b ++ c :: rev w) with ((rev b ++ [c]) ++ rev w) in Ha
      by by rewrite <- app_assoc.
    by rewrite Hx in Ha.
  - rewrite <- Hx. by rewrite last_last.
Qed.

Lemma filter_sublist {A : Type} (P Q : A -> Prop)
    `{!forall x, Decision (P x)} `{!forall x, Decision (Q x)} (l : list A) :
  (forall x, Q x -> P x) -> filter Q l `sublist_of` filter P l.
Proof.
  intros HQP. induction l as [|x l IH]; [done|].
  rewrite !filter_cons.
  destruct (decide (Q x)) as [HQ|HQ], (decide (P x)) as [HP|HP].
  - by apply sublist_skip.
  - destruct HP. by apply HQP.
  - by apply sublist_cons.
  - done.
Qed.

(** ** Requests on an open document *)

Section Requests.

Variable getTextRange : TextDocument -> Range -> jsstring.

(** The text before the caret on its line, as [part_001] asks for it. *)
Local Abbreviation before document params :=
  (getTextRange document
     {| start := position0 (line (position params)) 0;
        end_ := position0 (line (position params))
                          (character (position params)) |}).

(** The same, as [part_000] asks for it: the end is the caret itself. *)
Local Abbreviation beforeA document params :=
  (getTextRange document
     {| start := position0 (line (position params)) 0;
        end_ := position params |}).

Lemma onCompletion_B_answer (params : TextDocumentPositionParams)
    (sv : Server) (document : TextDocument) :
  documents sv !! textDocument_uri params = Some document ->
  (ServerB.onCompletion getTextRange params sv).1
  = filter (fun k => trim (before document params) `prefix_of` ServerB.label k)
           ServerB.keywords.
Proof.
  intros Hopen. unfold ServerB.onCompletion. rewrite Hopen.
  cbv zeta. cbn [fst].
  apply filter_bool_decide. intros k.
  rewrite orb_true_iff, startsWith_prefix.
  destruct (trim (before document params)) as [|c t]; split.
  - intros _. apply prefix_nil.
  - intros _. by left.
  - by intros [|].
  - by right.
Qed.

(** X16: completion in [part_000], for an open document: the answer lists,
    in the order of the keyword table, exactly the keywords that start with
    the trimmed text before the caret; each item inserts its own label as
    plain text, and the state is left alone. *)
Theorem X16_completion_part000
    (params : TextDocumentPositionParams) (sv : Server)
    (document : TextDocument) :
  documents sv !! textDocument_uri params = Some document ->
  let typed := trim (beforeA document params) in
  let answer := (ServerA.onCompletion getTextRange params sv).1 in
  (ServerA.onCompletion getTextRange params sv).2 = sv /\
  map ServerA.label answer
    = filter (fun kw => typed `prefix_of` kw) ServerA.keywords /\
  Forall (fun i => ServerA.insertText i = ServerA.label i /\
                   ServerA.kind i = 13 /\ ServerA.insertTextFormat i = 1)
         answer /\
  (typed = [] -> map ServerA.label answer = ServerA.keywords).
Proof.
  intros Hopen typed answer. subst answer.
  unfold ServerA.onCompletion. rewrite Hopen. cbv zeta. cbn [fst snd].
  fold typed. clearbody typed.
  assert (forall l : list jsstring,
            map ServerA.label
              (map (fun kw => {| ServerA.label := kw; ServerA.kind := 13;
                                 ServerA.insertText := kw;
                                 ServerA.insertTextFormat := 1 |}) l) = l)
    as Hlabels.
  { intros l. rewrite map_map. simpl. apply map_id. }
  assert (List.filter (fun kw => startsWith kw typed) ServerA.keywords
          = filter (fun kw => typed `prefix_of` kw) ServerA.keywords) as Hf.
  { apply filter_bool_decide. intros kw. apply startsWith_prefix. }
  split; [done|]. rewrite Hlabels, Hf. split; [done|]. split.
  - apply List.Forall_map, Forall_true. by intros kw.
  - intros ->. apply filter_all. intros kw. apply prefix_nil.
Qed.

(** X17: typing more never brings an entry back: when the trimmed text of one
    request is a prefix of that of another, the answer to the second is a
    sublist of the answer to the first ([part_001], [part_002]). *)
Theorem X17_longer_prefix_narrows
    (params1 params2 : TextDocumentPositionParams) (sv1 sv2 : Server)
    (document1 document2 : TextDocument) :
  documents sv1 !! textDocument_uri params1 = Some document1 ->
  documents sv2 !! textDocument_uri params2 = Some document2 ->
  trim (before document1 params1) `prefix_of` trim (before document2 params2) ->
  (ServerB.onCompletion getTextRange params2 sv2).1
    `sublist_of` (ServerB.onCompletion getTextRange params1 sv1).1.
Proof.
  intros H1 H2 Hpre.
  rewrite (onCompletion_B_answer _ _ _ H1), (onCompletion_B_answer _ _ _ H2).
  apply filter_sublist. intros k Hk. by etrans.
Qed.

(** X18: white space around the text before the caret (indentation, a
    trailing blank) does not change the list of completions
    ([part_001], [part_002]). *)
Theorem X18_completion_ignores_surrounding_blanks
    (params1 params2 : TextDocumentPositionParams) (sv1 sv2 : Server)
    (document1 document2 : TextDocument) (w1 w2 : jsstring) :
  documents sv1 !! textDocument_uri params1 = Some document1 ->
  documents sv2 !! textDocument_uri params2 = Some document2 ->
  blank w1 -> blank w2 ->
  before document1 params1 = w1 ++ before document2 params2 ++ w2 ->
  (ServerB.onCompletion getTextRange params1 sv1).1
  = (ServerB.onCompletion getTextRange params2 sv2).1.
Proof.
  intros H1 H2 Hw1 Hw2 Hline.
  rewrite (onCompletion_B_answer _ _ _ H1), (onCompletion_B_answer _ _ _ H2).
  by rewrite Hline, trim_blank_app.
Qed.

(** X19: on a line of white space only, or before anything is typed,
    completion in [part_001] and [part_002] offers the whole table. *)
Theorem X19_blank_line_offers_whole_table
    (params : TextDocumentPositionParams) (sv : Server)
    (document : TextDocument) :
  documents sv !! textDocument_uri params = Some document ->
  blank (before document params) ->
  (ServerB.onCompletion getTextRange params sv).1 = ServerB.keywords.
Proof.
  intros Hopen Hblank. rewrite (onCompletion_B_answer _ _ _ Hopen).
  pose proof (trim_blank_app (before document params) [] [] Hblank) as Ht.
  rewrite !app_nil_r in Ht. rewrite Ht by constructor.
  apply filter_all. intros k. apply prefix_nil.
Qed.

(** X20: go-to-definition on an open document never looks at the text: the
    answer is columns 0 to 10 of the caret's line in the document asked
    about, the same for every text and every caret column. *)
Theorem X20_definition_ignores_text
    (params params' : TextDocumentPositionParams) (sv sv' : Server) :
  is_Some (documents sv !! textDocument_uri params) ->
  is_Some (documents sv' !! textDocument_uri params') ->
  textDocument_uri params = textDocument_uri params' ->
  line (position params) = line (position params') ->
  (ServerB.onDefinition params sv).1 = (ServerB.onDefinition params' sv').1 /\
  (ServerB.onDefinition params sv).1
  = Some {| loc_uri := textDocument_uri params;
            loc_range :=
              {| start := position0 (line (position params)) 0;
                 end_ := position0 (line (position params)) 10 |} |} /\
  (ServerB.onDefinition params sv).2 = sv.
Proof.
  intros [d Hd] [d' Hd'] Huri Hline. unfold ServerB.onDefinition.
  rewrite Hd, Hd', Huri, Hline. by repeat split.
Qed.

(** X21: hover on an open document always answers, with markdown made of the
    fixed heading, an empty line, and the caret's line with the white space
    at both ends removed; the state is left alone. *)
Theorem X21_hover_shows_trimmed_line
    (params : TextDocumentPositionParams) (sv : Server)
    (document : TextDocument) :
  documents sv !! textDocument_uri params = Some document ->
  exists shown,
    ServerB.onHover getTextRange params sv
    = (Some {| contents :=
                 {| markup_kind := js "markdown";
                    value := js "**当前行内容**" ++ [10; 10]%N ++ shown |} |},
       sv) /\
    trimmed shown /\
    exists w1 w2,
      blank w1 /\ blank w2 /\
      getTextRange document
        {| start := position0 (line (position params)) 0;
           end_ := position0 (line (position params) + 1) 0 |}
      = w1 ++ shown ++ w2.
Proof.
  intros Hopen. unfold ServerB.onHover. rewrite Hopen. cbv zeta.
  set (l := getTextRange document _).
  exists (trim l). split; [done|]. split; [apply trim_trimmed|].
  unfold trim.
  destruct (trimStart_split l) as (w1 & Hl & Hw1).
  destruct (trimStart_split (rev (trimStart l))) as (w2 & Hr & Hw2).
  exists w1, (rev w2). split; [done|]. split; [by apply blank_rev|].
  rewrite Hl at 1. f_equal.
  rewrite <- (rev_involutive (trimStart l)), Hr at 1.
  by rewrite rev_app_distr.
Qed.

End Requests.

(** ** The further properties at concrete inputs *)

Lemma X2_witness :
  let engine :=
    Sample.parse (Sample.always (IsWenyanError Sample.scenarioError)) in
  exists dA dB,
    publishes Sample.server0
      (ServerA.validateDocument Sample.tokenize engine
         Sample.document1 Sample.server0) (js "d1") [dA] /\
    publishes Sample.server0
      (ServerB.validateDocument Sample.tokenize engine
         Sample.document1 Sample.server0) (js "d1") [dB] /\
    severity dA = Error /\ severity dB = Error /\
    source dA = js "wenyan-lsp" /\ source dB = js "wenyan-lsp" /\
    message dA = message dB /\
    (forall error, IsWenyanError Sample.scenarioError = IsWenyanError error ->
                   message dA = err_message error).
Proof.
  intros engine.
  apply (X2_severity_source_message Sample.tokenize engine
           Sample.document1 Sample.server0 (IsWenyanError Sample.scenarioError)).
  reflexivity.
Defined.

Lemma X3_witness :
  let engine := Sample.parse (Sample.always (OtherError (Some []))) in
  exists d,
    publishes Sample.server0
      (ServerA.validateDocument Sample.tokenize engine
         Sample.document1 Sample.server0) (js "d1") [d] /\
    publishes Sample.server0
      (ServerB.validateDocument Sample.tokenize engine
         Sample.document1 Sample.server0) (js "d1") [d] /\
    message d <> [] /\
    (forall s : jsstring, Some [] = Some s -> s <> [] -> message d = s) /\
    (Some [] = @None jsstring \/ Some [] = @Some jsstring [] ->
     message d = js "未知错误") /\
    range d = {| start := position0 0 0; end_ := position0 0 1 |}.
Proof.
  intros engine.
  apply (X3_other_error_fallback_message Sample.tokenize engine
           Sample.document1 Sample.server0 (Some [])).
  reflexivity.
Defined.

Lemma X4_witness :
  let lexer := fun _ : jsstring => @Throws jsstring (OtherError None) in
  ServerA.validateDocument lexer (Sample.parse Sample.never)
    Sample.document1 Sample.server0
  = ServerA.validateDocument lexer
      (Sample.parse (Sample.always (IsWenyanError Sample.scenarioError)))
      Sample.document1 Sample.server0 /\
  ServerB.validateDocument lexer (Sample.parse Sample.never)
    Sample.document1 Sample.server0
  = ServerB.validateDocument lexer
      (Sample.parse (Sample.always (IsWenyanError Sample.scenarioError)))
      Sample.document1 Sample.server0.
Proof.
  intros lexer.
  apply (X4_lexer_failure_skips_parser lexer (Sample.parse Sample.never)
           (Sample.parse (Sample.always (IsWenyanError Sample.scenarioError)))
           Sample.document1 Sample.server0 (OtherError None)).
  reflexivity.
Defined.

Lemma X5_witness :
  let r := range (ServerB.wenyanDiagnostic
                    {| err_message := js "语法错误：第3行，第5列";
                       err_line := None; err_column := None |}) in
  oneWide r /\ -1 <= line (start r) /\ -1 <= character (start r).
Proof.
  apply (X5_message_position_bounds
           {| err_message := js "语法错误：第3行，第5列";
              err_line := None; err_column := None |}).
  - intros g H. vm_compute in H. injection H as <-. vm_compute. discriminate.
  - intros g H. vm_compute in H. injection H as <-. vm_compute. discriminate.
Defined.

Lemma X6_witness :
  range (ServerB.wenyanDiagnostic
           {| err_message := js "第7行 未知之名"; err_line := None;
              err_column := None |})
  = {| start := position0 6 0; end_ := position0 6 1 |}.
Proof.
  pose proof (X6_one_marker_only
                {| err_message := js "第7行 未知之名"; err_line := None;
                   err_column := None |}
                [] (js "7") (js " 未知之名")) as H.
  destruct H as [H _];
    [discriminate | repeat constructor | vm_compute; discriminate |].
  apply H.
  - reflexivity.
  - apply (matchMarker_None hang hang_not_digit). reflexivity.
  - apply (matchMarker_None lie lie_not_digit). reflexivity.
Defined.


Lemma sample_update_keeps_uri (d : TextDocument) (c : list jsstring) (v : Z) :
  uri (Sample.update d c v) = uri d.
Proof. reflexivity. Qed.

Lemma sample_server0_keyed : keyed Sample.server0.
Proof. intros k d H. simpl in H. by rewrite lookup_empty in H. Qed.

Lemma X14_witness :
  let ns := [ DidOpen Sample.scenarioOpen;
              DidChange (js "d1") [js "令 甲 为 二"] 2;
              DidClose (js "d2") ] in
  keyed (listenA Sample.tokenize (Sample.parse Sample.scenarioScript)
           Sample.update ns Sample.server0) /\
  keyed (listenB Sample.tokenize (Sample.parse Sample.scenarioScript)
           Sample.update ns Sample.server0).
Proof.
  intros ns.
  apply (X14_snapshots_stay_under_their_identifier Sample.tokenize
           (Sample.parse Sample.scenarioScript) Sample.update ns Sample.server0).
  - exact sample_update_keeps_uri.
  - exact sample_server0_keyed.
Defined.

Lemma X15_witness :
  let ns := [ DidOpen Sample.scenarioOpen;
              DidChange (js "d1") [js "令 甲 为 二"] 2;
              DidClose (js "d2") ] in
  (exists new,
     sent (listenA Sample.tokenize (Sample.parse Sample.scenarioScript)
             Sample.update ns Sample.server0) = sent Sample.server0 ++ new /\
     Forall (fun p => pd_uri p ∈ map subject ns) new) /\
  (exists new,
     sent (listenB Sample.tokenize (Sample.parse Sample.scenarioScript)
             Sample.update ns Sample.server0) = sent Sample.server0 ++ new /\
     Forall (fun p => pd_uri p ∈ map subject ns) new).
Proof.
  intros ns.
  apply (X15_publishes_only_for_named_documents Sample.tokenize
           (Sample.parse Sample.scenarioScript) Sample.update ns Sample.server0).
  - exact sample_update_keeps_uri.
  - exact sample_server0_keyed.
Defined.

Lemma X16_witness :
  let params := {| textDocument_uri := js "d1"; position := position0 1 3 |} in
  let answer :=
    (ServerA.onCompletion Sample.getTextRange params Sample.server1).1 in
  (ServerA.onCompletion Sample.getTextRange params Sample.server1).2
    = Sample.server1 /\
  map ServerA.label answer
    = filter (fun kw => js "复" `prefix_of` kw) ServerA.keywords /\
  Forall (fun i => ServerA.insertText i = ServerA.label i /\
                   ServerA.kind i = 13 /\ ServerA.insertTextFormat i = 1)
         answer /\
  (js "复" = [] -> map ServerA.label answer = ServerA.keywords).
Proof.
  intros params answer.
  apply (X16_completion_part000 Sample.getTextRange params Sample.server1
           Sample.document1).
  reflexivity.
Defined.

Lemma X17_witness :
  let params1 := {| textDocument_uri := js "d1"; position := position0 1 2 |} in
  let params2 := {| textDocument_uri := js "d1"; position := position0 1 3 |} in
  (ServerB.onCompletion Sample.getTextRange params2 Sample.server1).1
    `sublist_of`
  (ServerB.onCompletion Sample.getTextRange params1 Sample.server1).1.
Proof.
  intros params1 params2.
  apply (X17_longer_prefix_narrows Sample.getTextRange params1 params2
           Sample.server1 Sample.server1 Sample.document1 Sample.document1).
  - reflexivity.
  - reflexivity.
  - vm_compute. apply prefix_nil.
Defined.

Lemma X18_witness :
  let params1 := {| textDocument_uri := js "d1"; position := position0 1 3 |} in
  let params2 := {| textDocument_uri := js "d2"; position := position0 0 1 |} in
  let document2 := create (js "d2") (js "wenyan") 1 (js "复行") in
  let server2 := {| documents := {[ js "d2" := document2 ]}; sent := [] |} in
  (ServerB.onCompletion Sample.getTextRange params1 Sample.server1).1
  = (ServerB.onCompletion Sample.getTextRange params2 server2).1.
Proof.
  intros params1 params2 document2 server2.
  apply (X18_completion_ignores_surrounding_blanks Sample.getTextRange
           params1 params2 Sample.server1 server2 Sample.document1 document2
           (js "  ") []).
  - reflexivity.
  - reflexivity.
  - repeat constructor.
  - constructor.
  - reflexivity.
Defined.

Lemma X19_witness :
  (ServerB.onCompletion Sample.getTextRange
     {| textDocument_uri := js "d1"; position := position0 1 2 |}
     Sample.server1).1
  = ServerB.keywords.
Proof.
  apply (X19_blank_line_offers_whole_table Sample.getTextRange
           {| textDocument_uri := js "d1"; position := position0 1 2 |}
           Sample.server1 Sample.document1).
  - reflexivity.
  - vm_compute. repeat constructor.
Defined.

Lemma X20_witness :
  let params := {| textDocument_uri := js "d1"; position := position0 1 0 |} in
  let params' := {| textDocument_uri := js "d1"; position := position0 1 7 |} in
  let document2 := create (js "d1") (js "wenyan") 4 (js "求 甲") in
  let server2 := {| documents := {[ js "d1" := document2 ]}; sent := [] |} in
  (ServerB.onDefinition params Sample.server1).1
  = (ServerB.onDefinition params' server2).1 /\
  (ServerB.onDefinition params Sample.server1).1
  = Some {| loc_uri := js "d1";
            loc_range := {| start := position0 1 0; end_ := position0 1 10 |} |} /\
  (ServerB.onDefinition params Sample.server1).2 = Sample.server1.
Proof.
  intros params params' document2 server2.
  apply (X20_definition_ignores_text params params' Sample.server1 server2).
  - eexists. reflexivity.
  - eexists. reflexivity.
  - reflexivity.
  - reflexivity.
Defined.

Lemma X21_witness :
  let params := {| textDocument_uri := js "d1"; position := position0 1 0 |} in
  exists shown,
    ServerB.onHover Sample.getTextRange params Sample.server1
    = (Some {| contents :=
                 {| markup_kind := js "markdown";
                    value := js "**当前行内容**" ++ [10; 10]%N ++ shown |} |},
       Sample.server1) /\
    trimmed shown /\
    exists w1 w2,
      blank w1 /\ blank w2 /\
      Sample.getTextRange Sample.document1
        {| start := position0 1 0; end_ := position0 (1 + 1) 0 |}
      = w1 ++ shown ++ w2.
Proof.
  intros params.
  apply (X21_hover_shows_trimmed_line Sample.getTextRange params
           Sample.server1 Sample.document1).
  reflexivity.
Defined.

Example hover_of_second_line :
  (ServerB.onHover Sample.getTextRange
     {| textDocument_uri := js "d1"; position := position0 1 0 |}
     Sample.server1).1
  = Some {| contents :=
              {| markup_kind := js "markdown";
                 value := js "**当前行内容**" ++ [10; 10]%N ++ js "复" |} |}.
Proof. vm_compute. reflexivity. Qed.

Example openAfter_reopen :
  openAfter (js "d1")
    [ DidOpen Sample.scenarioOpen; DidClose (js "d1");
      DidChange (js "d1") [js "x"] 2; DidOpen Sample.scenarioOpen ] false
  = true.
Proof. reflexivity. Qed.
